(** * EBNFComposer: composition of function-call grammars

    A shallow embedding of [python/sglang/srt/function_call/ebnf_composer.py]
    and the properties of the grammar text it composes.

    The Python code works on strings, on dictionaries and on lists.  Strings
    are [string]; the dictionaries that are only looked up by key
    ([prop_kv_pairs], the class-level tables, the keyword arguments of
    [str.format]) are [gmap]s; [set(required)] is a [gset]; the property
    mapping, whose declaration order the generated grammar depends on, is an
    association list.  Exceptions are an error monad. *)

From Stdlib Require Import ZArith Ascii DecimalString.
From stdpp Require Import gmap strings list.

(** ** The pieces of the Python runtime the composer relies on *)

Module Py.

(** The double quote character, and a line feed. *)
Definition dq : string := String (ascii_of_nat 34) EmptyString.
Definition nl : string := String (ascii_of_nat 10) EmptyString.

(** Exceptions.  [OutsideModel] is not a Python exception: [format] below
    returns it for a template that uses a part of the format mini-language
    this development leaves out. *)
Inductive exn : Type :=
  | KeyError (key : string)
  | IndexError
  | ValueError
  | OutsideModel.

Inductive result (A : Type) : Type :=
  | Ok (a : A)
  | Raise (e : exn).
Arguments Ok {A} a.
Arguments Raise {A} e.

#[global] Instance result_ret : MRet result := λ A a, Ok a.
#[global] Instance result_bind : MBind result := λ A B f m,
  match m with
  | Ok a => f a
  | Raise e => Raise e
  end.

(** Values that occur as elements of a JSON-schema [enum]: [None], booleans,
    integers and strings. *)
Inductive value : Type :=
  | PyNone
  | PyBool (b : bool)
  | PyInt (z : Z)
  | PyStr (s : string).

(** [str(v)], which is also what an f-string field [{v}] renders.  CPython
    refuses to print an integer of more than 4300 digits; [str] is [str(v)]
    for the integers within that limit. *)
Definition str (v : value) : string :=
  match v with
  | PyNone => "None"
  | PyBool true => "True"
  | PyBool false => "False"
  | PyInt z => NilEmpty.string_of_int (Z.to_int z)
  | PyStr s => s
  end.

(** Truth value of [v] in a conditional. *)
Definition truthy (v : value) : bool :=
  match v with
  | PyNone => false
  | PyBool b => b
  | PyInt z => negb (z =? 0)%Z
  | PyStr s => negb (String.eqb s EmptyString)
  end.

(** Truth value of an [Optional[str]] argument: [None] and the empty string
    are false. *)
Definition given (o : option string) : bool :=
  match o with
  | Some s => negb (String.eqb s EmptyString)
  | None => false
  end.

(** [sep.join(parts)]. *)
Definition join (sep : string) (parts : list string) : string :=
  String.concat sep parts.
Arguments join : simpl never.

(** [d[k]] on a dictionary. *)
Definition getitem {V} (d : gmap string V) (k : string) : result V :=
  match d !! k with
  | Some v => Ok v
  | None => Raise (KeyError k)
  end.

(** [l[i]] on a list, for an index that is not negative. *)
Definition index {V} (l : list V) (i : nat) : result V :=
  match l !! i with
  | Some v => Ok v
  | None => Raise IndexError
  end.

(** [d.get(k, dflt)]. *)
Definition get {V} (d : gmap string V) (k : string) (dflt : V) : V :=
  default dflt (d !! k).

(** *** [str.format] with keyword arguments

    The template is scanned from left to right.  [{{] and [}}] stand for one
    brace; [{name}] is replaced by the keyword argument [name]; a brace on
    its own is a [ValueError]; a name that is no keyword argument is a
    [KeyError]; an empty or numeric name asks for a positional argument, of
    which there is none, an [IndexError].  A field with a conversion ([!]), a
    format specification ([:]) or an attribute or item access is outside the
    model. *)

Inductive scan : Type :=
  | Text                      (* in literal text *)
  | Opened                    (* just read a left brace *)
  | Field (name : string)     (* inside a replacement field *)
  | Closed.                   (* just read a right brace in literal text *)

Definition is_digit (c : ascii) : bool :=
  let n := nat_of_ascii c in (48 <=? n)%nat && (n <=? 57)%nat.

Fixpoint all_digits (s : string) : bool :=
  match s with
  | EmptyString => true
  | String c s' => is_digit c && all_digits s'
  end.

Definition is_accessor (c : ascii) : bool :=
  Ascii.eqb c "!"%char || Ascii.eqb c ":"%char || Ascii.eqb c "."%char || Ascii.eqb c "["%char.

Definition get_field (kwargs : gmap string string) (name : string) : result string :=
  if all_digits name then Raise IndexError else getitem kwargs name.

Fixpoint format_from (kwargs : gmap string string) (st : scan) (tmpl : string)
    : result string :=
  match tmpl with
  | EmptyString =>
      match st with
      | Text => Ok EmptyString
      | _ => Raise ValueError
      end
  | String c rest =>
      match st with
      | Text =>
          if Ascii.eqb c "{"%char then format_from kwargs Opened rest
          else if Ascii.eqb c "}"%char then format_from kwargs Closed rest
          else r ← format_from kwargs Text rest; Ok (String c r)
      | Opened =>
          if Ascii.eqb c "{"%char then
            r ← format_from kwargs Text rest; Ok (String "{"%char r)
          else if Ascii.eqb c "}"%char then Raise IndexError
          else if is_accessor c then Raise OutsideModel
          else format_from kwargs (Field (String c EmptyString)) rest
      | Field name =>
          if Ascii.eqb c "}"%char then
            v ← get_field kwargs name;
            r ← format_from kwargs Text rest;
            Ok (v +:+ r)
          else if Ascii.eqb c "{"%char then Raise ValueError
          else if is_accessor c then Raise OutsideModel
          else format_from kwargs (Field (name +:+ String c EmptyString)) rest
      | Closed =>
          if Ascii.eqb c "}"%char then
            r ← format_from kwargs Text rest; Ok (String "}"%char r)
          else Raise ValueError
      end
  end.

(** [tmpl.format(k1=v1, ...)] for the keyword arguments [kwargs]. *)
Definition format (tmpl : string) (kwargs : list (string * string)) : result string :=
  format_from (list_to_map kwargs) Text tmpl.

End Py.

(** ** The data the composer reads *)

(** A property schema is a dictionary of which the composer reads the keys
    ["enum"] and ["type"]; the value of ["type"] is one type name or a list
    of type names. *)
Inductive prop_type : Type :=
  | TypeName (t : string)
  | TypeList (ts : list string).

Record schema : Type := Schema {
  enum : option (list Py.value);
  type : option prop_type;
}.

(** [tool.function.parameters], with its keys ["properties"] (a dictionary
    from property name to schema, in declaration order) and ["required"]. *)
Record parameters_dict : Type := Parameters {
  properties : option (list (string * schema));
  required : option (list string);
}.

Record function_def : Type := Function {
  name : string;
  parameters : option parameters_dict;
}.

Record tool_def : Type := Tool {
  function : function_def;
}.

(** ** The composer *)

Module EBNFComposer.
Import Py.

(** *** Class-level constants *)

Definition BASE_PRIMITIVE_GRAMMAR : string :=
  nl
  +:+ "        basic_string ::= (([\" +:+ dq +:+ "] basic_string_1 [\" +:+ dq +:+ "]))" +:+ nl
  +:+ "        basic_string_1 ::= " +:+ dq +:+ dq +:+ " | [^" +:+ dq +:+ "\\\x00-\x1F] basic_string_1 | " +:+ dq +:+ "\\" +:+ dq +:+ " escape basic_string_1" +:+ nl
  +:+ "        escape ::= [" +:+ dq +:+ "\\/bfnrt] | " +:+ dq +:+ "u" +:+ dq +:+ " [A-Fa-f0-9]{4}" +:+ nl
  +:+ "        basic_integer ::= (" +:+ dq +:+ "0" +:+ dq +:+ " | " +:+ dq +:+ "-" +:+ dq +:+ "? [1-9] [0-9]*) " +:+ dq +:+ ".0" +:+ dq +:+ "?" +:+ nl
  +:+ "        basic_number ::= (" +:+ dq +:+ "0" +:+ dq +:+ " | " +:+ dq +:+ "-" +:+ dq +:+ "? [1-9] [0-9]*) (" +:+ dq +:+ "." +:+ dq +:+ " [0-9]+)? ([eE] [+-]? [0-9]+)?" +:+ nl
  +:+ "        basic_array ::= " +:+ dq +:+ "[" +:+ dq +:+ " (" +:+ dq +:+ dq +:+ " | ws basic_any (ws " +:+ dq +:+ "," +:+ dq +:+ " ws basic_any)*) ws " +:+ dq +:+ "]" +:+ dq +:+ nl
  +:+ "        basic_object ::= " +:+ dq +:+ "{" +:+ dq +:+ " (" +:+ dq +:+ dq +:+ " | ws basic_string ws " +:+ dq +:+ ":" +:+ dq +:+ " ws basic_any ( ws " +:+ dq +:+ "," +:+ dq +:+ " ws basic_string ws " +:+ dq +:+ ":" +:+ dq +:+ " ws basic_any)*) ws " +:+ dq +:+ "}" +:+ dq +:+ nl
  +:+ "        ws ::= [ \n\t]*" +:+ nl
  +:+ "    ".

Definition json_grammar_ebnf_str : string :=
  nl
  +:+ "        json ::= basic_array | basic_object" +:+ nl
  +:+ "        basic_any ::= basic_number | basic_string | basic_boolean | basic_null | basic_array | basic_object" +:+ nl
  +:+ "        basic_boolean ::= " +:+ dq +:+ "true" +:+ dq +:+ " | " +:+ dq +:+ "false" +:+ dq +:+ nl
  +:+ "        basic_null ::= " +:+ dq +:+ "null" +:+ dq +:+ nl
  +:+ "    " +:+ BASE_PRIMITIVE_GRAMMAR.

Definition pythonic_grammar_ebnf_str : string :=
  nl
  +:+ "        pythonic ::= basic_number | basic_string | basic_array | " +:+ dq +:+ "True" +:+ dq +:+ " | " +:+ dq +:+ "False" +:+ dq +:+ " | " +:+ dq +:+ "None" +:+ dq +:+ nl
  +:+ "        basic_any ::= basic_number | basic_string | basic_array | basic_object" +:+ nl
  +:+ "        basic_boolean ::= " +:+ dq +:+ "True" +:+ dq +:+ " | " +:+ dq +:+ "False" +:+ dq +:+ nl
  +:+ "        basic_null ::= " +:+ dq +:+ "None" +:+ dq +:+ nl
  +:+ "    " +:+ BASE_PRIMITIVE_GRAMMAR.

Definition xml_grammar_ebnf_str : string :=
  nl
  +:+ "        xml ::= xml_element | xml_text" +:+ nl
  +:+ "        xml_element ::= basic_string | basic_number | basic_boolean | basic_null | basic_array | basic_object" +:+ nl
  +:+ "        xml_text ::= [^<>]*" +:+ nl
  +:+ "        basic_any ::= basic_number | basic_string | basic_boolean | basic_null | basic_array | basic_object" +:+ nl
  +:+ "        basic_boolean ::= " +:+ dq +:+ "true" +:+ dq +:+ " | " +:+ dq +:+ "false" +:+ dq +:+ nl
  +:+ "        basic_null ::= " +:+ dq +:+ "null" +:+ dq +:+ nl
  +:+ "    " +:+ BASE_PRIMITIVE_GRAMMAR.

Definition CALL_RULE_MAP : gmap string string := list_to_map [
  ("pythonic",
   "call_{name} ::= " +:+ dq +:+ "{name}" +:+ dq +:+ " " +:+ dq +:+ "(" +:+ dq
   +:+ " {arguments_rule} " +:+ dq +:+ ")" +:+ dq);
  ("json",
   "call_{name} ::= " +:+ dq +:+ "{{" +:+ dq +:+ " " +:+ dq +:+ "\" +:+ dq +:+ "name\" +:+ dq +:+ dq
   +:+ " " +:+ dq +:+ ":" +:+ dq +:+ " " +:+ dq +:+ "\" +:+ dq +:+ "{name}\" +:+ dq +:+ dq
   +:+ " " +:+ dq +:+ ", " +:+ dq +:+ " " +:+ dq +:+ "\" +:+ dq +:+ "arguments\" +:+ dq +:+ dq
   +:+ " " +:+ dq +:+ ":" +:+ dq +:+ " {arguments_rule} " +:+ dq +:+ "}}" +:+ dq);
  ("xml",
   "call_{name} ::= " +:+ dq +:+ "<function={name}>\n" +:+ dq
   +:+ " {arguments_rule} " +:+ dq +:+ "\n</function>" +:+ dq)
].

Definition ARGUMENTS_RULE_MAP : gmap string string := list_to_map [
  ("pythonic", "{arg_rules}");
  ("json", dq +:+ "{{" +:+ dq +:+ " {arg_rules} " +:+ dq +:+ "}}" +:+ dq);
  ("xml", "{arg_rules}")
].

Definition KEY_VALUE_RULE_MAP : gmap string string := list_to_map [
  ("pythonic", dq +:+ "{key}" +:+ dq +:+ " " +:+ dq +:+ "=" +:+ dq +:+ " {valrule}");
  ("json",
   dq +:+ "\" +:+ dq +:+ "{key}\" +:+ dq +:+ dq +:+ " " +:+ dq +:+ ":" +:+ dq +:+ " {valrule}");
  ("xml",
   dq +:+ "<parameter={key}>\n" +:+ dq +:+ " {valrule} " +:+ dq +:+ "\n</parameter>" +:+ dq)
].

(** Base type mapping: most types are the same across formats. *)
Definition BASE_TYPE_MAPPING : gmap string string := list_to_map [
  ("string", "basic_string");
  ("number", "basic_number");
  ("integer", "basic_number");
  ("boolean", "basic_boolean");
  ("null", "basic_null");
  ("array", "basic_array");
  ("object", "basic_object")
].

(** Format-specific overrides for the types that differ. *)
Definition FORMAT_TYPE_OVERRIDES : gmap string (gmap string string) := list_to_map [
  ("pythonic", list_to_map [
     ("boolean", dq +:+ "True" +:+ dq +:+ " | " +:+ dq +:+ "False" +:+ dq);
     ("null", dq +:+ "None" +:+ dq)
   ]);
  ("xml", list_to_map [
     ("string", "xml_text")
   ])
].

(** *** Value rules *)

(** The test [prop_type == t] of [_handle_enum], where [prop_type] may be a
    list, which equals no string. *)
Definition type_is (prop_type : prop_type) (t : string) : bool :=
  match prop_type with
  | TypeName t' => String.eqb t' t
  | TypeList _ => false
  end.

Definition format_enum_val (prop_type : prop_type) (function_format : string)
    (v : value) : string :=
  if type_is prop_type "boolean" then
    if String.eqb function_format "json" || String.eqb function_format "xml" then
      if truthy v then "true" else "false"
    else if String.eqb function_format "pythonic" then
      if truthy v then "True" else "False"
    else str v
  else if type_is prop_type "string" then
    if String.eqb function_format "xml" then dq +:+ str v +:+ dq
    else dq +:+ "\" +:+ dq +:+ str v +:+ "\" +:+ dq +:+ dq
  else str v.

(** Handle enum properties by formatting each value according to type and
    format. *)
Definition _handle_enum (prop : schema) (function_format : string) : result string :=
  match enum prop with
  | None => Raise (KeyError "enum")
  | Some enum_values =>
      let prop_type := default (TypeName "string") (type prop) in
      let formatted_values := format_enum_val prop_type function_format <$> enum_values in
      let enum_rule := join " | " formatted_values in
      Ok (if (1 <? length formatted_values)%nat
          then "(" +:+ enum_rule +:+ ")" else enum_rule)
  end.

(** The complete type mapping for a format: the base mapping updated with the
    format's overrides. *)
Definition get_type_mapping (function_format : string) : gmap string string :=
  let overrides := get FORMAT_TYPE_OVERRIDES function_format ∅ in
  overrides ∪ BASE_TYPE_MAPPING.

(** Handle type properties using the appropriate type mapping. *)
Definition _handle_type (prop : schema) (function_format : string) : result string :=
  match type prop with
  | None => Raise (KeyError "type")
  | Some prop_type =>
      let type_mapping := get_type_mapping function_format in
      match prop_type with
      | TypeList ts =>
          let type_rules :=
            (λ single_type, get type_mapping single_type function_format) <$> ts in
          Ok (match type_rules with
              | [] => function_format
              | _ => join " | " type_rules
              end)
      | TypeName t => Ok (get type_mapping t function_format)
      end
  end.

Definition get_value_rule (prop : schema) (function_format : string) : result string :=
  if bool_decide (is_Some (enum prop)) then _handle_enum prop function_format
  else if bool_decide (is_Some (type prop)) then _handle_type prop function_format
  else Ok function_format.

(** *** [build_ebnf] *)

(** Step 1: the root tool calls rule. *)
Definition root_rule_of (sequence_start_token sequence_end_token
    individual_call_start_token individual_call_end_token
    tool_call_separator : option string) : string :=
  (* Handle a single function call *)
  let function_call_unit :=
    if given individual_call_start_token && given individual_call_end_token then
      dq +:+ default EmptyString individual_call_start_token +:+ dq
      +:+ " function_call "
      +:+ dq +:+ default EmptyString individual_call_end_token +:+ dq
    else "function_call" in
  (* Handle multiple function calls with separators *)
  let base_pattern :=
    match tool_call_separator with
    | Some separator =>
        function_call_unit +:+ " ( " +:+ dq +:+ separator +:+ dq +:+ " "
        +:+ function_call_unit +:+ " )*"
    | None => function_call_unit
    end in
  (* Apply sequence-level wrapping if needed *)
  if given sequence_start_token && given sequence_end_token then
    dq +:+ default EmptyString sequence_start_token +:+ dq +:+ " " +:+ base_pattern
    +:+ " " +:+ dq +:+ default EmptyString sequence_end_token +:+ dq
  else base_pattern.

(** Step 2: the header rules. *)
Definition header_rules (tools : list tool_def) (root_rule : string) : list string :=
  [ "root ::= " +:+ root_rule;
    "function_call ::= "
    +:+ join " | " ((λ tool, "call_" +:+ name (function tool)) <$> tools) ].

(** Step 3: the formatting templates. *)
Definition call_template_of (function_format : string)
    (call_rule_fmt : option string) : result string :=
  if given call_rule_fmt
  then Ok ("call_{name} ::= " +:+ default EmptyString call_rule_fmt)
  else getitem CALL_RULE_MAP function_format.

Definition args_template_of (function_format : string) : result string :=
  getitem ARGUMENTS_RULE_MAP function_format.

Definition key_value_template_of (function_format : string)
    (key_value_rule_fmt : option string) : result string :=
  if given key_value_rule_fmt
  then Ok (default EmptyString key_value_rule_fmt)
  else getitem KEY_VALUE_RULE_MAP function_format.

(** The three assignments, in the order of the source. *)
Definition templates (function_format : string)
    (call_rule_fmt key_value_rule_fmt : option string)
    : result (string * string * string) :=
  call_template ← call_template_of function_format call_rule_fmt;
  args_template ← args_template_of function_format;
  key_value_template ← key_value_template_of function_format key_value_rule_fmt;
  Ok (call_template, args_template, key_value_template).

(** Step 4, the body of the loop over [properties.items()]: the key-value
    pair of one property. *)
Definition key_value_pair (function_format key_value_template : string)
    (prop_name : string) (prop_schema : schema) : result string :=
  value_rule ← get_value_rule prop_schema function_format;
  (* Create key=value pair *)
  format key_value_template [("key", prop_name); ("valrule", value_rule)].

(** The loop itself, which fills [prop_kv_pairs]. *)
Fixpoint key_value_pairs (function_format key_value_template : string)
    (items : list (string * schema)) (prop_kv_pairs : gmap string string)
    : result (gmap string string) :=
  match items with
  | [] => Ok prop_kv_pairs
  | (prop_name, prop_schema) :: items' =>
      pair ← key_value_pair function_format key_value_template prop_name prop_schema;
      key_value_pairs function_format key_value_template items'
        (<[prop_name := pair]> prop_kv_pairs)
  end.

(** Separate into required and optional while preserving order. *)
Definition required_of (ordered_props : list string) (required_props : gset string)
    : list string :=
  filter (λ p, p ∈ required_props) ordered_props.

Definition optional_of (ordered_props : list string) (required_props : gset string)
    : list string :=
  filter (λ p, p ∉ required_props) ordered_props.

(** The pattern for [optional[i]] appearing first: the inner loop over
    [range(i, len(optional))]. *)
Definition opt_alternative (key_value_separator : string)
    (prop_kv_pairs : gmap string string) (optional : list string) (i : nat)
    : result string :=
  opt_parts ← mapM (λ j,
      k ← index optional j;
      pair ← getitem prop_kv_pairs k;
      Ok (if (j =? i)%nat then pair
          else " ( " +:+ dq +:+ key_value_separator +:+ dq +:+ " " +:+ pair +:+ " )?"))
    (seq i (length optional - i));
  Ok (join EmptyString opt_parts).

(** Build the combined rule of one tool: [rule_parts] joined. *)
Definition combined_args_of (key_value_separator : string)
    (prop_kv_pairs : gmap string string) (required optional : list string)
    : result string :=
  let rule_parts : list string := [] in
  (* Add required properties joined by commas *)
  rule_parts ←
    (if bool_decide (required ≠ []) then
       pairs ← mapM (getitem prop_kv_pairs) required;
       Ok (rule_parts ++ [join (" " +:+ dq +:+ key_value_separator +:+ dq +:+ " ") pairs])
     else Ok rule_parts);
  (* Add optional properties with flexible ordering *)
  rule_parts ←
    (if bool_decide (optional ≠ []) then
       (* Build alternatives where any optional property can appear first *)
       opt_alternatives ←
         mapM (opt_alternative key_value_separator prop_kv_pairs optional)
              (seq 0 (length optional));
       (* Wrap with appropriate comma handling based on whether we have
          required properties *)
       if bool_decide (required ≠ []) then
         Ok (rule_parts
             ++ [" ( " +:+ dq +:+ key_value_separator +:+ dq +:+ " ( ";
                 join " | " opt_alternatives;
                 " ) )?"])
       else
         Ok (rule_parts ++ ["( "; join " | " opt_alternatives; " )?"])
     else Ok rule_parts);
  Ok (join EmptyString rule_parts).

(** [params.get("properties", {})] and [set(params.get("required", []))]
    for [params = tool.function.parameters or {}]. *)
Definition params_of (tool : tool_def) : parameters_dict :=
  default (Parameters None None) (parameters (function tool)).

Definition properties_of (tool : tool_def) : list (string * schema) :=
  default [] (properties (params_of tool)).

Definition required_props_of (tool : tool_def) : gset string :=
  list_to_set (default [] (required (params_of tool))).

(** [ordered_props = list(properties.keys())] and its two parts. *)
Definition ordered_props_of (tool : tool_def) : list string :=
  (properties_of tool).*1.

Definition required_list (tool : tool_def) : list string :=
  required_of (ordered_props_of tool) (required_props_of tool).

Definition optional_list (tool : tool_def) : list string :=
  optional_of (ordered_props_of tool) (required_props_of tool).

(** Step 4, the body of the loop over the tools: the two rules of a tool. *)
Definition tool_rules (function_format call_template args_template
    key_value_template key_value_separator : string) (tool : tool_def)
    : result (list string) :=
  let tool_name := name (function tool) in
  let props := properties_of tool in
  prop_kv_pairs ← key_value_pairs function_format key_value_template props ∅;
  let required := required_list tool in
  let optional := optional_list tool in
  combined_args ← combined_args_of key_value_separator prop_kv_pairs required optional;
  arguments_rule ← format args_template [("arg_rules", combined_args)];
  (* Add the function call rule and its arguments rule *)
  call_rule ← format call_template
    [("name", tool_name); ("arguments_rule", "arguments_" +:+ tool_name)];
  Ok [call_rule; "arguments_" +:+ tool_name +:+ " ::= " +:+ arguments_rule].

Fixpoint tools_loop (function_format call_template args_template
    key_value_template key_value_separator : string) (tools : list tool_def)
    (ebnf_lines : list string) : result (list string) :=
  match tools with
  | [] => Ok ebnf_lines
  | tool :: tools' =>
      rules ← tool_rules function_format call_template args_template
                key_value_template key_value_separator tool;
      tools_loop function_format call_template args_template
        key_value_template key_value_separator tools' (ebnf_lines ++ rules)
  end.

(** Step 5: the base grammar rules. *)
Definition grammar_dict : gmap string string := list_to_map [
  ("pythonic", pythonic_grammar_ebnf_str);
  ("json", json_grammar_ebnf_str);
  ("xml", xml_grammar_ebnf_str)
].

(** The list [ebnf_lines] when [build_ebnf] returns. *)
Definition build_ebnf_lines (tools : list tool_def) (function_format : string)
    (sequence_start_token sequence_end_token
     individual_call_start_token individual_call_end_token
     tool_call_separator call_rule_fmt key_value_rule_fmt : option string)
    (key_value_separator : string) : result (list string) :=
  let root_rule := root_rule_of sequence_start_token sequence_end_token
    individual_call_start_token individual_call_end_token tool_call_separator in
  let ebnf_lines := header_rules tools root_rule in
  '(call_template, args_template, key_value_template) ←
    templates function_format call_rule_fmt key_value_rule_fmt;
  ebnf_lines ← tools_loop function_format call_template args_template
    key_value_template key_value_separator tools ebnf_lines;
  let base_grammar := get grammar_dict function_format json_grammar_ebnf_str in
  Ok (ebnf_lines ++ [base_grammar]).

(** Generalized EBNF builder for all detectors. *)
Definition build_ebnf (tools : list tool_def) (function_format : string)
    (sequence_start_token sequence_end_token
     individual_call_start_token individual_call_end_token
     tool_call_separator call_rule_fmt key_value_rule_fmt : option string)
    (key_value_separator : string) : result string :=
  ebnf_lines ← build_ebnf_lines tools function_format
    sequence_start_token sequence_end_token
    individual_call_start_token individual_call_end_token
    tool_call_separator call_rule_fmt key_value_rule_fmt key_value_separator;
  Ok (join nl ebnf_lines).

End EBNFComposer.

Import Py EBNFComposer.

(** ** Notions the properties are stated with *)

(** The three formats of the registry. *)
Definition known_format (function_format : string) : Prop :=
  function_format ∈ ["json"; "pythonic"; "xml"].

(** The number of positions of [s] at which [sub] occurs. *)
Fixpoint occurrences (sub s : string) : nat :=
  match s with
  | EmptyString => 0
  | String _ s' => (if String.prefix sub s then 1 else 0) + occurrences sub s'
  end.

(** Whether the character [c] occurs in [s]. *)
Fixpoint has_char (c : ascii) (s : string) : bool :=
  match s with
  | EmptyString => false
  | String c' s' => Ascii.eqb c c' || has_char c s'
  end.

(** [( "SEP" f )?]: the fragment [f] behind a separator, omittable. *)
Definition opt_wrap (sep f : string) : string :=
  " ( " +:+ dq +:+ sep +:+ dq +:+ " " +:+ f +:+ " )?".

(** Alternative [i] over the fragments [fs]: fragment [i], followed by each
    later fragment in order, wrapped by [opt_wrap]. *)
Definition alternative (sep : string) (fs : list string) (i : nat) : string :=
  match drop i fs with
  | [] => EmptyString
  | f :: later => f +:+ join EmptyString (opt_wrap sep <$> later)
  end.

(** One alternative per start index, joined by [|]. *)
Definition alternation (sep : string) (fs : list string) : string :=
  join " | " (alternative sep fs <$> seq 0 (length fs)).

(** The chain of required fragments. *)
Definition chain (sep : string) (fs : list string) : string :=
  join (" " +:+ dq +:+ sep +:+ dq +:+ " ") fs.

(** The combined rule of a tool whose required properties have the
    fragments [rfs] and whose optional properties have the fragments [ofs]:
    the four cases of the property ordering combinator. *)
Definition arguments_fragment (sep : string) (rfs ofs : list string) : string :=
  match rfs, ofs with
  | [], [] => EmptyString
  | _ :: _, [] => chain sep rfs
  | [], _ :: _ => "( " +:+ alternation sep ofs +:+ " )?"
  | _ :: _, _ :: _ =>
      chain sep rfs +:+ " ( " +:+ dq +:+ sep +:+ dq +:+ " ( "
      +:+ alternation sep ofs +:+ " ) )?"
  end.

(** What the arguments template of a format makes of the combined rule. *)
Definition wrap_arguments (function_format combined_args : string) : string :=
  if String.eqb function_format "json"
  then dq +:+ "{" +:+ dq +:+ " " +:+ combined_args +:+ " " +:+ dq +:+ "}" +:+ dq
  else combined_args.

(** The key-value fragments of a list of properties. *)
Definition fragments (function_format key_value_template : string)
    (items : list (string * schema)) : result (list string) :=
  mapM (λ item, key_value_pair function_format key_value_template item.1 item.2) items.

(** The required and the optional properties of a tool, with their schemas. *)
Definition required_items (tool : tool_def) : list (string * schema) :=
  filter (λ item, item.1 ∈ required_props_of tool) (properties_of tool).

Definition optional_items (tool : tool_def) : list (string * schema) :=
  filter (λ item, item.1 ∉ required_props_of tool) (properties_of tool).

(** [ebnf_lines] holds the two header rules, then the call rule and the
    arguments rule of each tool in turn. *)
Definition call_rule_of (lines : list string) (k : nat) : option string :=
  lines !! (2 + 2 * k).

Definition arguments_rule_of (lines : list string) (k : nat) : option string :=
  lines !! (3 + 2 * k).

(** The property mapping of the tool is a dictionary: no key occurs twice. *)
Definition properties_dict (tool : tool_def) : Prop :=
  NoDup (ordered_props_of tool).

(** [x] is declared before [y] in [l]. *)
Definition before {A} (x y : A) (l : list A) : Prop :=
  ∃ l1 l2 l3, l = l1 ++ x :: l2 ++ y :: l3.

(** The rule a type name resolves to: the entry of the format's override
    table if there is one, else the entry of the base type mapping, else the
    name of the format's top-level value rule. *)
Definition resolve_type (function_format t : string) : string :=
  match FORMAT_TYPE_OVERRIDES !! function_format ≫= (.!! t) with
  | Some rule => rule
  | None =>
      match BASE_TYPE_MAPPING !! t with
      | Some rule => rule
      | None => function_format
      end
  end.

(** A tool with the property mapping [props] and the list [req] under
    ["required"]. *)
Definition tool_of (tool_name : string) (props : list (string * schema))
    (req : list string) : tool_def :=
  Tool (Function tool_name (Some (Parameters (Some props) (Some req)))).

(** ** Sample inputs *)

Definition string_schema : schema := Schema None (Some (TypeName "string")).
Definition integer_schema : schema := Schema None (Some (TypeName "integer")).
Definition boolean_schema : schema := Schema None (Some (TypeName "boolean")).

(** [{"enum": [true, false], "type": "boolean"}] *)
Definition boolean_enum : schema :=
  Schema (Some [PyBool true; PyBool false]) (Some (TypeName "boolean")).

(** Three optional properties. *)
Definition search_tool : tool_def :=
  tool_of "search"
    [("x", string_schema); ("y", integer_schema); ("z", boolean_schema)] [].

(** One required property and two optional ones. *)
Definition weather_tool : tool_def :=
  tool_of "get_weather"
    [("location", string_schema);
     ("unit", Schema (Some [PyStr "celsius"; PyStr "fahrenheit"]) (Some (TypeName "string")));
     ("days", integer_schema)]
    ["location"].

(** Three required properties. *)
Definition add_tool : tool_def :=
  tool_of "add"
    [("a", integer_schema); ("b", integer_schema); ("c", integer_schema)]
    ["a"; "b"; "c"].

(** A required boolean and a required string. *)
Definition toggle_tool : tool_def :=
  tool_of "toggle" [("on", boolean_schema); ("label", string_schema)] ["on"; "label"].

(** The combined rule of [toggle_tool] in the pythonic format. *)
Definition toggle_arguments : string :=
  dq +:+ "on" +:+ dq +:+ " " +:+ dq +:+ "=" +:+ dq +:+ " "
  +:+ dq +:+ "True" +:+ dq +:+ " | " +:+ dq +:+ "False" +:+ dq
  +:+ " " +:+ dq +:+ "," +:+ dq +:+ " "
  +:+ dq +:+ "label" +:+ dq +:+ " " +:+ dq +:+ "=" +:+ dq +:+ " basic_string".

(** The root rule for the sequence tokens [<tools>] and [</tools>] and the
    separator [;]. *)
Definition tools_root_rule : string :=
  dq +:+ "<tools>" +:+ dq +:+ " function_call ( " +:+ dq +:+ ";" +:+ dq
  +:+ " function_call )* " +:+ dq +:+ "</tools>" +:+ dq.

(** ** The texts the templates of the registry give *)


(** The call rule of the tool [tool_name]. *)
Definition default_call_rule (function_format tool_name : string) : string :=
  let arguments_rule := "arguments_" +:+ tool_name in
  if String.eqb function_format "pythonic" then
    "call_" +:+ tool_name +:+ " ::= " +:+ dq +:+ tool_name +:+ dq +:+ " "
    +:+ dq +:+ "(" +:+ dq +:+ " " +:+ arguments_rule +:+ " " +:+ dq +:+ ")" +:+ dq
  else if String.eqb function_format "xml" then
    "call_" +:+ tool_name +:+ " ::= " +:+ dq +:+ "<function=" +:+ tool_name +:+ ">\n" +:+ dq
    +:+ " " +:+ arguments_rule +:+ " " +:+ dq +:+ "\n</function>" +:+ dq
  else
    "call_" +:+ tool_name +:+ " ::= " +:+ dq +:+ "{" +:+ dq
    +:+ " " +:+ dq +:+ "\" +:+ dq +:+ "name\" +:+ dq +:+ dq
    +:+ " " +:+ dq +:+ ":" +:+ dq
    +:+ " " +:+ dq +:+ "\" +:+ dq +:+ tool_name +:+ "\" +:+ dq +:+ dq
    +:+ " " +:+ dq +:+ ", " +:+ dq
    +:+ " " +:+ dq +:+ "\" +:+ dq +:+ "arguments\" +:+ dq +:+ dq
    +:+ " " +:+ dq +:+ ":" +:+ dq
    +:+ " " +:+ arguments_rule +:+ " " +:+ dq +:+ "}" +:+ dq.

(** The keyword arguments the call template is formatted with. *)
Definition call_kwargs (tool_name : string) : list (string * string) :=
  [("name", tool_name); ("arguments_rule", "arguments_" +:+ tool_name)].



(** Two tools of which [build_ebnf] reads the same: the same name, the same
    property mapping, and the same properties in the required set. *)
Definition same_reading (tool tool' : tool_def) : Prop :=
  name (function tool) = name (function tool')
  ∧ properties_of tool = properties_of tool'
  ∧ ∀ p, p ∈ ordered_props_of tool →
         p ∈ required_props_of tool ↔ p ∈ required_props_of tool'.

(** A tool without parameters. *)
Definition ping_tool : tool_def := Tool (Function "ping" None).

(** The values [str] prints on CPython: an integer of more than 4300 digits
    is refused there with a [ValueError]. *)
Definition printable (v : value) : bool :=
  match v with
  | PyInt z => (Z.abs z <? 10 ^ 4300)%Z
  | _ => true
  end.

(** The elements of the enum of a schema, if it has one, are printable. *)
Definition schema_printable (prop : schema) : bool :=
  match enum prop with
  | Some vs => forallb printable vs
  | None => true
  end.

(** So are those of every property of the tool. *)
Definition tool_printable (tool : tool_def) : bool :=
  forallb (λ item, schema_printable item.2) (properties_of tool).

(** ** Strings *)

Section strings.
Implicit Types s t u : string.

Lemma append_cons c s t : String c s +:+ t = String c (s +:+ t).
Proof. reflexivity. Qed.

Lemma append_nil_r s : s +:+ EmptyString = s.
Proof. induction s as [|c s IH]; [done | by rewrite append_cons, IH]. Qed.

Lemma append_assoc s t u : (s +:+ t) +:+ u = s +:+ (t +:+ u).
Proof. induction s as [|c s IH]; [done | by rewrite !append_cons, IH]. Qed.

Lemma has_char_append c s t : has_char c (s +:+ t) = has_char c s || has_char c t.
Proof.
  induction s as [|c' s IH]; [done |].
  rewrite append_cons. simpl. by rewrite IH, orb_assoc.
Qed.

Lemma has_char_join c sep (parts : list string) :
  has_char c sep = false →
  Forall (λ part, has_char c part = false) parts →
  has_char c (join sep parts) = false.
Proof.
  intros Hsep. induction 1 as [|part parts Hpart _ IH]; [done |].
  destruct parts as [|part' parts]; [done |].
  change (join sep (part :: part' :: parts))
    with (part +:+ sep +:+ join sep (part' :: parts)).
  by rewrite !has_char_append, Hpart, Hsep, IH.
Qed.

Lemma join_cons_cons sep s t (parts : list string) :
  join sep (s :: t :: parts) = s +:+ sep +:+ join sep (t :: parts).
Proof. done. Qed.

Lemma join_empty_cons s (parts : list string) :
  join EmptyString (s :: parts) = s +:+ join EmptyString parts.
Proof. unfold join. destruct parts; simpl; [by rewrite append_nil_r | done]. Qed.
End strings.

(** ** The error monad *)

Lemma bind_Ok {A B} (m : result A) (f : A → result B) b :
  m ≫= f = Ok b ↔ ∃ a, m = Ok a ∧ f a = Ok b.
Proof.
  destruct m as [a|e]; simpl; split.
  - eauto.
  - by intros (a' & [= <-] & ?).
  - done.
  - by intros (a' & ? & ?).
Qed.

Section mapM.
Context {A B : Type}.
Implicit Types (f : A → result B).

Lemma mapM_Ok_fmap f (g : A → B) (l : list A) :
  (∀ x, x ∈ l → f x = Ok (g x)) → mapM f l = Ok (g <$> l).
Proof.
  induction l as [|x l IH]; intros Hf; simpl; [done |].
  rewrite (Hf x) by left. simpl.
  rewrite IH by (intros; apply Hf; by right). done.
Qed.

Lemma mapM_fmap_Ok {C} f (h : C → A) (g : C → B) (l : list C) :
  (∀ x, x ∈ l → f (h x) = Ok (g x)) → mapM f (h <$> l) = Ok (g <$> l).
Proof.
  induction l as [|x l IH]; intros Hf; [done |].
  rewrite !fmap_cons. simpl. rewrite (Hf x) by left. simpl.
  rewrite IH by (intros; apply Hf; by right). done.
Qed.

Lemma mapM_Ok_length f (l : list A) (k : list B) :
  mapM f l = Ok k → length k = length l.
Proof.
  revert k. induction l as [|x l IH]; intros k; simpl.
  - by intros [= <-].
  - intros (y & _ & (k' & Hk' & [= <-])%bind_Ok)%bind_Ok.
    simpl. by rewrite (IH k').
Qed.

Lemma mapM_Ok_lookup f (l : list A) (k : list B) i x :
  mapM f l = Ok k → l !! i = Some x → ∃ y, f x = Ok y ∧ k !! i = Some y.
Proof.
  revert k i. induction l as [|x' l IH]; intros k i; simpl; [done |].
  intros (y & Hy & (k' & Hk' & [= <-])%bind_Ok)%bind_Ok.
  destruct i as [|i]; simpl.
  - intros [= ->]. eauto.
  - by apply IH.
Qed.
Lemma mapM_Ok_Forall f (P : B → Prop) (l : list A) (k : list B) :
  mapM f l = Ok k → (∀ x y, f x = Ok y → P y) → Forall P k.
Proof.
  intros Hk HP. revert k Hk. induction l as [|x l IH]; intros k; simpl.
  - intros [= <-]. constructor.
  - intros (y & Hy & (k' & Hk' & [= <-])%bind_Ok)%bind_Ok.
    constructor; eauto.
Qed.

Lemma mapM_app_cons_ext f (l1 l2 : list A) x x' :
  f x = f x' → mapM f (l1 ++ x :: l2) = mapM f (l1 ++ x' :: l2).
Proof.
  intros Hx. induction l1 as [|y l1 IH]; simpl; [by rewrite Hx |].
  by rewrite IH.
Qed.
End mapM.

(** ** The tables and templates of the formats *)

Section tables.
Implicit Types function_format : string.

Lemma known_format_cases function_format :
  known_format function_format ↔
  function_format = "json" ∨ function_format = "pythonic" ∨ function_format = "xml".
Proof.
  unfold known_format. rewrite !elem_of_cons, elem_of_nil. tauto.
Qed.

Lemma getitem_Ok {V} (d : gmap string V) k v : getitem d k = Ok v ↔ d !! k = Some v.
Proof.
  unfold getitem. destruct (d !! k); split; intros H; by inversion H.
Qed.

(** Each table of the registry has the three formats as its keys, in the
    order pythonic, json, xml. *)
Lemma registry_lookup {V} (v1 v2 v3 : V) function_format v :
  (list_to_map [("pythonic", v1); ("json", v2); ("xml", v3)] : gmap string V)
    !! function_format = Some v →
  function_format = "pythonic" ∧ v = v1
  ∨ function_format = "json" ∧ v = v2
  ∨ function_format = "xml" ∧ v = v3.
Proof.
  intros H%elem_of_list_to_map_2.
  rewrite !elem_of_cons, elem_of_nil in H.
  destruct H as [H | [H | [H | []]]]; inversion H; auto.
Qed.

Lemma registry_lookup_None {V} (v1 v2 v3 : V) function_format :
  ¬ known_format function_format →
  (list_to_map [("pythonic", v1); ("json", v2); ("xml", v3)] : gmap string V)
    !! function_format = None.
Proof.
  intros H. apply not_elem_of_list_to_map_1. contradict H.
  apply known_format_cases. simpl in H.
  rewrite !elem_of_cons, elem_of_nil in H. tauto.
Qed.

Lemma templates_known function_format call_rule_fmt key_value_rule_fmt :
  known_format function_format →
  ∃ call_template args_template key_value_template,
    templates function_format call_rule_fmt key_value_rule_fmt
    = Ok (call_template, args_template, key_value_template).
Proof.
  intros [-> | [-> | ->]]%known_format_cases;
    unfold templates, call_template_of, key_value_template_of;
    destruct (given call_rule_fmt), (given key_value_rule_fmt);
    vm_compute; eauto.
Qed.

(** The arguments template of each format puts the combined rule between
    braces (json) or leaves it as it is. *)
Lemma format_arguments_rule function_format args_template combined_args :
  ARGUMENTS_RULE_MAP !! function_format = Some args_template →
  format args_template [("arg_rules", combined_args)]
  = Ok (wrap_arguments function_format combined_args).
Proof.
  intros [[-> ->] | [[-> ->] | [-> ->]]]%registry_lookup.
  - transitivity (Ok (combined_args +:+ EmptyString)); [by vm_compute |].
    by rewrite append_nil_r.
  - by vm_compute.
  - transitivity (Ok (combined_args +:+ EmptyString)); [by vm_compute |].
    by rewrite append_nil_r.
Qed.

(** The default templates are well-formed: formatting them never fails. *)
Lemma format_key_value_default function_format key_value_template key valrule :
  KEY_VALUE_RULE_MAP !! function_format = Some key_value_template →
  ∃ pair, format key_value_template [("key", key); ("valrule", valrule)] = Ok pair.
Proof.
  intros [[-> ->] | [[-> ->] | [-> ->]]]%registry_lookup; vm_compute; eauto.
Qed.

Lemma format_call_default function_format call_template tool_name arguments_rule :
  CALL_RULE_MAP !! function_format = Some call_template →
  ∃ rule, format call_template
            [("name", tool_name); ("arguments_rule", arguments_rule)] = Ok rule.
Proof.
  intros [[-> ->] | [[-> ->] | [-> ->]]]%registry_lookup; vm_compute; eauto.
Qed.
End tables.

(** ** Value rules *)

Section value_rules.
Implicit Types (prop : schema) (function_format : string).


Lemma get_value_rule_of_type prop function_format t :
  enum prop = None → type prop = Some t →
  get_value_rule prop function_format = _handle_type prop function_format.
Proof. intros H1 H2. unfold get_value_rule. by rewrite H1, H2. Qed.

Lemma get_value_rule_neither prop function_format :
  enum prop = None → type prop = None →
  get_value_rule prop function_format = Ok function_format.
Proof. intros H1 H2. unfold get_value_rule. by rewrite H1, H2. Qed.

(** [get_value_rule] never raises. *)
Lemma get_value_rule_total prop function_format :
  ∃ rule, get_value_rule prop function_format = Ok rule.
Proof.
  destruct prop as [[vs|] [t|]]; unfold get_value_rule; simpl;
    unfold _handle_enum, _handle_type; simpl; eauto.
  destruct t; eauto.
Qed.
End value_rules.

(** ** The dictionary of key-value pairs *)

Section key_value_pairs.
Variables function_format key_value_template : string.
Implicit Types (items : list (string * schema)) (d acc : gmap string string).

Local Abbreviation pair_of := (key_value_pair function_format key_value_template).
Local Abbreviation pairs_of := (key_value_pairs function_format key_value_template).

(** A key that is not assigned in the loop keeps its entry. *)
Lemma key_value_pairs_other items acc d k :
  pairs_of items acc = Ok d → k ∉ items.*1 → d !! k = acc !! k.
Proof.
  revert acc. induction items as [|[k' sch'] items IH]; intros acc; simpl.
  - by intros [= <-].
  - intros (f & _ & Hd)%bind_Ok Hk.
    apply not_elem_of_cons in Hk as [Hne Hk].
    rewrite (IH _ Hd Hk). by apply lookup_insert_ne.
Qed.

(** In a dictionary of properties, where no key occurs twice, the loop
    stores the pair of each property under its name. *)
Lemma key_value_pairs_lookup items acc d k sch :
  NoDup items.*1 → pairs_of items acc = Ok d → (k, sch) ∈ items →
  ∃ f, pair_of k sch = Ok f ∧ d !! k = Some f.
Proof.
  revert acc. induction items as [|[k' sch'] items IH]; intros acc; simpl.
  - intros _ _ H. by apply elem_of_nil in H.
  - intros [Hk' Hnd]%NoDup_cons (f & Hf & Hd)%bind_Ok [Heq | Hin]%elem_of_cons.
    + injection Heq as -> ->. exists f. split; [done |].
      rewrite (key_value_pairs_other _ _ _ _ Hd Hk').
      apply lookup_insert_eq.
    + by apply (IH _ Hnd Hd).
Qed.

(** The loop succeeds when the pair of each property can be formatted. *)
Lemma key_value_pairs_total items acc :
  (∀ k sch, (k, sch) ∈ items → ∃ f, pair_of k sch = Ok f) →
  ∃ d, pairs_of items acc = Ok d.
Proof.
  revert acc. induction items as [|[k sch] items IH]; intros acc Hall; simpl.
  - eauto.
  - destruct (Hall k sch) as [f Hf]; [by left |].
    rewrite Hf. simpl. apply IH. intros. apply Hall. by right.
Qed.

(** Reading the dictionary at the names of some of the properties gives
    their fragments. *)
Lemma fragments_getitem items d sub :
  NoDup items.*1 → pairs_of items ∅ = Ok d → sub ⊆ items →
  ∃ fs, fragments function_format key_value_template sub = Ok fs
        ∧ mapM (getitem d) sub.*1 = Ok fs.
Proof.
  intros Hnd Hd Hsub.
  exists ((λ item, default EmptyString (d !! item.1)) <$> sub). split.
  - apply mapM_Ok_fmap. intros [k sch] Hin. simpl.
    destruct (key_value_pairs_lookup _ _ _ k sch Hnd Hd) as (f & -> & ->); auto.
  - apply mapM_fmap_Ok. intros [k sch] Hin. simpl.
    destruct (key_value_pairs_lookup _ _ _ k sch Hnd Hd) as (f & _ & Hf); auto.
    unfold getitem. by rewrite Hf.
Qed.
End key_value_pairs.

(** ** The property ordering combinator *)

Section combinator.
Variables (key_value_separator : string) (prop_kv_pairs : gmap string string).
Implicit Types (required optional : list string) (fs rfs ofs : list string).

Lemma fmap_lookup_seq fs a :
  (λ j, default EmptyString (fs !! j)) <$> seq a (length fs - a) = drop a fs.
Proof.
  apply list_eq. intros i.
  rewrite list_lookup_fmap, lookup_drop.
  destruct (decide (i < length fs - a)) as [Hlt | Hge].
  - rewrite lookup_seq_lt by done. simpl.
    destruct (lookup_lt_is_Some_2 fs (a + i)) as [f ->]; [lia | done].
  - rewrite lookup_seq_ge by lia. simpl.
    symmetry. apply lookup_ge_None. lia.
Qed.

(** The inner loop builds alternative [i]. *)
Lemma opt_alternative_shape optional ofs i :
  mapM (getitem prop_kv_pairs) optional = Ok ofs → i < length optional →
  opt_alternative key_value_separator prop_kv_pairs optional i
  = Ok (alternative key_value_separator ofs i).
Proof.
  intros Hofs Hi. pose proof (mapM_Ok_length _ _ _ Hofs) as Hlen.
  unfold opt_alternative.
  set (g := λ j, let pair := default EmptyString (ofs !! j) in
                 if (j =? i)%nat then pair
                 else opt_wrap key_value_separator pair).
  rewrite (mapM_Ok_fmap _ g); simpl.
  - f_equal. unfold alternative.
    destruct (lookup_lt_is_Some_2 ofs i) as [f Hf]; [lia |].
    rewrite (drop_S _ _ _ Hf).
    replace (length optional - i) with (S (length ofs - S i)) by lia.
    rewrite <-cons_seq, fmap_cons, join_empty_cons. f_equal.
    + unfold g. simpl. by rewrite Nat.eqb_refl, Hf.
    + f_equal. rewrite <-fmap_lookup_seq, <-list_fmap_compose.
      apply list_fmap_ext. intros n j [-> ?]%lookup_seq. unfold g.
      cbv zeta. by rewrite (proj2 (Nat.eqb_neq (S i + n) i)) by lia.
  - intros j [_ Hj]%elem_of_seq.
    destruct (lookup_lt_is_Some_2 optional j) as [k Hk]; [lia |].
    destruct (mapM_Ok_lookup _ _ _ _ _ Hofs Hk) as (f & Hf & Hj').
    unfold index. rewrite Hk. simpl. rewrite Hf. simpl.
    unfold g. simpl. by rewrite Hj'.
Qed.

(** The outer loop builds one alternative per start index. *)
Lemma opt_alternatives_shape optional ofs :
  mapM (getitem prop_kv_pairs) optional = Ok ofs →
  mapM (opt_alternative key_value_separator prop_kv_pairs optional)
       (seq 0 (length optional))
  = Ok (alternative key_value_separator ofs <$> seq 0 (length ofs)).
Proof.
  intros Hofs. rewrite (mapM_Ok_length _ _ _ Hofs).
  apply mapM_Ok_fmap. intros i [_ Hi]%elem_of_seq.
  by apply opt_alternative_shape.
Qed.

(** The combined rule, by the four cases. *)
Lemma combined_args_of_shape required optional rfs ofs :
  mapM (getitem prop_kv_pairs) required = Ok rfs →
  mapM (getitem prop_kv_pairs) optional = Ok ofs →
  combined_args_of key_value_separator prop_kv_pairs required optional
  = Ok (arguments_fragment key_value_separator rfs ofs).
Proof.
  intros Hrfs Hofs.
  pose proof (mapM_Ok_length _ _ _ Hrfs) as Hlr.
  pose proof (mapM_Ok_length _ _ _ Hofs) as Hlo.
  unfold combined_args_of.
  rewrite Hrfs, (opt_alternatives_shape _ _ Hofs).
  destruct required as [|r required], optional as [|o optional]; simpl;
    fold (alternation key_value_separator ofs);
    fold (chain key_value_separator rfs);
    destruct rfs as [|rf rfs]; try done; destruct ofs as [|f ofs]; try done;
    unfold arguments_fragment; f_equal;
    by rewrite !join_empty_cons, ?append_nil_r, ?append_assoc.
Qed.
End combinator.

(** ** The partition of the properties *)

Section partition.
Implicit Types (items : list (string * schema)) (R : gset string).

Lemma filter_fst (P : string → Prop) `{∀ p, Decision (P p)} items :
  filter P items.*1 = (filter (λ item, P item.1) items).*1.
Proof.
  induction items as [|[k sch] items IH]; [done |].
  rewrite fmap_cons, !filter_cons. simpl.
  destruct (decide (P k)); simpl; by rewrite IH.
Qed.

Lemma required_list_items tool : required_list tool = (required_items tool).*1.
Proof. apply filter_fst. Qed.

Lemma optional_list_items tool : optional_list tool = (optional_items tool).*1.
Proof. apply filter_fst. Qed.

Lemma required_items_subseteq tool : required_items tool ⊆ properties_of tool.
Proof. intros item [_ ?]%list_elem_of_filter. done. Qed.

Lemma optional_items_subseteq tool : optional_items tool ⊆ properties_of tool.
Proof. intros item [_ ?]%list_elem_of_filter. done. Qed.

Lemma fragments_length function_format key_value_template items fs :
  fragments function_format key_value_template items = Ok fs →
  length fs = length items.
Proof. apply mapM_Ok_length. Qed.
End partition.

(** ** The rules of one tool *)

Section tool_rules.
Variables function_format call_template args_template key_value_template : string.
Variable key_value_separator : string.
Hypothesis args_template_default :
  ARGUMENTS_RULE_MAP !! function_format = Some args_template.

Local Abbreviation rules_of :=
  (tool_rules function_format call_template args_template key_value_template
     key_value_separator).

(** The two rules of a tool: its call rule, and its arguments rule, which
    is the combined rule of the fragments of its required and of its
    optional properties inside the arguments template. *)
Lemma tool_rules_shape tool rules :
  properties_dict tool → rules_of tool = Ok rules →
  ∃ rfs ofs call_rule,
    fragments function_format key_value_template (required_items tool) = Ok rfs
    ∧ fragments function_format key_value_template (optional_items tool) = Ok ofs
    ∧ format call_template
        [("name", name (function tool));
         ("arguments_rule", "arguments_" +:+ name (function tool))] = Ok call_rule
    ∧ rules = [call_rule;
               "arguments_" +:+ name (function tool) +:+ " ::= "
               +:+ wrap_arguments function_format
                     (arguments_fragment key_value_separator rfs ofs)].
Proof.
  intros Hnd. unfold tool_rules.
  intros (d & Hd & (combined & Hc & (arule & Ha & (crule & Hcr & [= <-])
    %bind_Ok)%bind_Ok)%bind_Ok)%bind_Ok.
  destruct (fragments_getitem _ _ _ _ _ Hnd Hd (required_items_subseteq tool))
    as (rfs & Hrfs & Hrget).
  destruct (fragments_getitem _ _ _ _ _ Hnd Hd (optional_items_subseteq tool))
    as (ofs & Hofs & Hoget).
  rewrite <-required_list_items in Hrget.
  rewrite <-optional_list_items in Hoget.
  rewrite (combined_args_of_shape _ _ _ _ _ _ Hrget Hoget) in Hc.
  injection Hc as <-.
  rewrite (format_arguments_rule _ _ _ args_template_default) in Ha.
  injection Ha as <-.
  by exists rfs, ofs, crule.
Qed.

(** With templates that can be formatted, the body of the loop does not
    raise. *)
Lemma tool_rules_total tool :
  properties_dict tool →
  (∀ key valrule, ∃ pair,
     format key_value_template [("key", key); ("valrule", valrule)] = Ok pair) →
  (∀ tool_name arguments_rule, ∃ rule,
     format call_template
       [("name", tool_name); ("arguments_rule", arguments_rule)] = Ok rule) →
  ∃ rules, rules_of tool = Ok rules.
Proof.
  intros Hnd Hkv Hcall. unfold tool_rules.
  destruct (key_value_pairs_total function_format key_value_template
              (properties_of tool) ∅) as [d Hd].
  { intros k sch _. unfold key_value_pair.
    destruct (get_value_rule_total sch function_format) as [rule ->]. simpl.
    apply Hkv. }
  rewrite Hd. simpl.
  destruct (fragments_getitem _ _ _ _ _ Hnd Hd (required_items_subseteq tool))
    as (rfs & Hrfs & Hrget).
  destruct (fragments_getitem _ _ _ _ _ Hnd Hd (optional_items_subseteq tool))
    as (ofs & Hofs & Hoget).
  rewrite <-required_list_items in Hrget.
  rewrite <-optional_list_items in Hoget.
  rewrite (combined_args_of_shape _ _ _ _ _ _ Hrget Hoget). simpl.
  rewrite (format_arguments_rule _ _ _ args_template_default). simpl.
  destruct (Hcall (name (function tool))
              ("arguments_" +:+ name (function tool))) as [rule ->].
  simpl. eauto.
Qed.
End tool_rules.

(** ** The lines of the grammar *)

Section build.
Implicit Types (tools : list tool_def) (lines : list string).

(** The loop over the tools appends the rules of each tool in turn. *)
Lemma tools_loop_mapM function_format call_template args_template
    key_value_template key_value_separator tools lines :
  tools_loop function_format call_template args_template key_value_template
    key_value_separator tools lines
  = mapM (tool_rules function_format call_template args_template
            key_value_template key_value_separator) tools
    ≫= λ rs, Ok (lines ++ concat rs).
Proof.
  revert lines. induction tools as [|tool tools IH]; intros lines; simpl.
  - by rewrite app_nil_r.
  - destruct (tool_rules _ _ _ _ _ tool) as [rules|e]; simpl; [|done].
    rewrite IH.
    destruct (mapM _ tools) as [rs|e]; simpl; [|done].
    by rewrite app_assoc.
Qed.

Lemma build_ebnf_lines_unfold tools function_format sequence_start_token
    sequence_end_token individual_call_start_token individual_call_end_token
    tool_call_separator call_rule_fmt key_value_rule_fmt key_value_separator :
  build_ebnf_lines tools function_format sequence_start_token
    sequence_end_token individual_call_start_token individual_call_end_token
    tool_call_separator call_rule_fmt key_value_rule_fmt key_value_separator
  = templates function_format call_rule_fmt key_value_rule_fmt
    ≫= λ '(call_template, args_template, key_value_template),
      mapM (tool_rules function_format call_template args_template
              key_value_template key_value_separator) tools
      ≫= λ rs,
        Ok (header_rules tools
              (root_rule_of sequence_start_token sequence_end_token
                 individual_call_start_token individual_call_end_token
                 tool_call_separator)
            ++ concat rs
            ++ [get grammar_dict function_format json_grammar_ebnf_str]).
Proof.
  unfold build_ebnf_lines.
  destruct (templates _ _ _) as [[[ct art] kt]|e]; simpl; [|done].
  rewrite tools_loop_mapM.
  by destruct (mapM _ tools) as [rs|e].
Qed.

Lemma templates_Ok function_format call_rule_fmt key_value_rule_fmt
    call_template args_template key_value_template :
  templates function_format call_rule_fmt key_value_rule_fmt
  = Ok (call_template, args_template, key_value_template) ↔
  call_template_of function_format call_rule_fmt = Ok call_template
  ∧ ARGUMENTS_RULE_MAP !! function_format = Some args_template
  ∧ key_value_template_of function_format key_value_rule_fmt = Ok key_value_template.
Proof.
  unfold templates, args_template_of. rewrite <-getitem_Ok.
  destruct (call_template_of _ _) as [ct|e],
    (getitem ARGUMENTS_RULE_MAP function_format) as [art|e'],
    (key_value_template_of _ _) as [kt|e'']; simpl; split;
    try (intros H; by inversion H);
    try (intros (H1 & H2 & H3); by inversion H1; inversion H2; inversion H3).
Qed.

(** Where the rules of tool [k] are in a list of pairs of rules. *)
Lemma concat_pairs_lookup (rs : list (list string)) k a b :
  Forall (λ r, length r = 2) rs → rs !! k = Some [a; b] →
  concat rs !! (2 * k) = Some a ∧ concat rs !! (1 + 2 * k) = Some b.
Proof.
  intros Hall. revert k. induction Hall as [|r rs Hr _ IH]; intros k; [done |].
  destruct k as [|k].
  - by intros [= ->].
  - intros Hk. destruct (IH _ Hk) as [Ha Hb].
    destruct r as [|x [|y [|z r]]]; try done.
    replace (2 * S k) with (S (S (2 * k))) by lia.
    replace (1 + 2 * S k) with (S (S (1 + 2 * k))) by lia.
    done.
Qed.

Lemma tool_rules_length function_format call_template args_template
    key_value_template key_value_separator tool rules :
  tool_rules function_format call_template args_template key_value_template
    key_value_separator tool = Ok rules →
  length rules = 2.
Proof.
  unfold tool_rules.
  by intros (d & _ & (combined & _ & (arule & _ & (crule & _ & [= <-])
    %bind_Ok)%bind_Ok)%bind_Ok)%bind_Ok.
Qed.

(** The rules of tool [k] in the lines that [build_ebnf] joins. *)
Lemma build_ebnf_lines_tool tools function_format sequence_start_token
    sequence_end_token individual_call_start_token individual_call_end_token
    tool_call_separator call_rule_fmt key_value_rule_fmt key_value_separator
    lines k tool :
  build_ebnf_lines tools function_format sequence_start_token
    sequence_end_token individual_call_start_token individual_call_end_token
    tool_call_separator call_rule_fmt key_value_rule_fmt key_value_separator
  = Ok lines →
  tools !! k = Some tool →
  properties_dict tool →
  ∃ key_value_template rfs ofs call_rule,
    key_value_template_of function_format key_value_rule_fmt = Ok key_value_template
    ∧ fragments function_format key_value_template (required_items tool) = Ok rfs
    ∧ fragments function_format key_value_template (optional_items tool) = Ok ofs
    ∧ call_rule_of lines k = Some call_rule
    ∧ arguments_rule_of lines k
      = Some ("arguments_" +:+ name (function tool) +:+ " ::= "
              +:+ wrap_arguments function_format
                    (arguments_fragment key_value_separator rfs ofs)).
Proof.
  rewrite build_ebnf_lines_unfold.
  intros ([[ct art] kt] & Ht & (rs & Hrs & [= <-])%bind_Ok)%bind_Ok Hk Hnd.
  apply templates_Ok in Ht as (_ & Hart & Hkt).
  destruct (mapM_Ok_lookup _ _ _ _ _ Hrs Hk) as (rules & Hrules & Hrk).
  destruct (tool_rules_shape _ _ _ _ _ Hart _ _ Hnd Hrules)
    as (rfs & ofs & crule & Hrfs & Hofs & _ & ->).
  exists kt, rfs, ofs, crule. repeat split; try done.
  - unfold call_rule_of, header_rules. simpl.
    apply lookup_app_l_Some.
    eapply concat_pairs_lookup; [|done].
    eapply mapM_Ok_Forall; [done |]. intros ??. apply tool_rules_length.
  - unfold arguments_rule_of, header_rules. simpl.
    apply lookup_app_l_Some.
    eapply (concat_pairs_lookup _ k); [|done].
    eapply mapM_Ok_Forall; [done |]. intros ??. apply tool_rules_length.
Qed.

(** With the templates of the registry, [build_ebnf] returns a grammar for
    every list of tools whose property mappings are dictionaries. *)
Lemma build_ebnf_lines_total tools function_format sequence_start_token
    sequence_end_token individual_call_start_token individual_call_end_token
    tool_call_separator key_value_separator :
  known_format function_format →
  Forall properties_dict tools →
  ∃ lines,
    build_ebnf_lines tools function_format sequence_start_token
      sequence_end_token individual_call_start_token individual_call_end_token
      tool_call_separator None None key_value_separator
    = Ok lines.
Proof.
  intros Hfmt Htools. rewrite build_ebnf_lines_unfold.
  destruct (templates_known _ None None Hfmt) as (ct & art & kt & Ht).
  rewrite Ht. simpl. apply templates_Ok in Ht as (Hct & Hart & Hkt).
  apply getitem_Ok in Hct, Hkt.
  assert (∃ rs, mapM (tool_rules function_format ct art kt key_value_separator)
                  tools = Ok rs) as [rs ->]; [|simpl; eauto].
  induction Htools as [|tool tools Htool _ [rs IH]]; simpl; [eauto |].
  destruct (tool_rules_total function_format ct art kt key_value_separator
              Hart tool Htool) as [rules ->]; simpl.
  - intros. by eapply format_key_value_default.
  - intros. by eapply format_call_default.
  - rewrite IH. simpl. eauto.
Qed.
Lemma concat_pairs_length (rs : list (list string)) :
  Forall (λ r, length r = 2) rs → length (concat rs) = 2 * length rs.
Proof.
  induction 1 as [|r rs Hr _ IH]; [done |].
  simpl. rewrite length_app, Hr, IH. lia.
Qed.

(** What [build_ebnf] returns is its lines joined by line feeds: the two
    header rules, two rules per tool and the base grammar. *)
Lemma build_ebnf_Ok_lines tools function_format sequence_start_token
    sequence_end_token individual_call_start_token individual_call_end_token
    tool_call_separator call_rule_fmt key_value_rule_fmt key_value_separator
    text :
  build_ebnf tools function_format sequence_start_token
    sequence_end_token individual_call_start_token individual_call_end_token
    tool_call_separator call_rule_fmt key_value_rule_fmt key_value_separator
  = Ok text →
  ∃ lines,
    build_ebnf_lines tools function_format sequence_start_token
      sequence_end_token individual_call_start_token individual_call_end_token
      tool_call_separator call_rule_fmt key_value_rule_fmt key_value_separator
    = Ok lines
    ∧ text = join nl lines
    ∧ length lines = 3 + 2 * length tools.
Proof.
  unfold build_ebnf. intros (lines & Hlines & [= <-])%bind_Ok.
  exists lines. repeat apply conj; try done.
  rewrite build_ebnf_lines_unfold in Hlines.
  apply bind_Ok in Hlines as ([[ct art] kt] & _ & (rs & Hrs & [= <-])%bind_Ok).
  assert (Forall (λ r : list string, length r = 2) rs) as Hall.
  { eapply mapM_Ok_Forall; [done |]. intros ??. apply tool_rules_length. }
  unfold header_rules. simpl.
  rewrite length_app, (concat_pairs_length _ Hall), (mapM_Ok_length _ _ _ Hrs).
  simpl. lia.
Qed.

(** The text starts with the first of the lines, on a line of its own. *)
Lemma join_lines_first (first second : string) (lines : list string) :
  join nl (first :: second :: lines)
  = first +:+ nl +:+ join nl (second :: lines).
Proof. apply join_cons_cons. Qed.
End build.

(** ** Properties of the value rule resolver *)

Section resolver.
Implicit Types (prop : schema) (function_format t : string).

(** The combined type table of the source is the override table laid over
    the base mapping. *)
Lemma get_type_mapping_resolve function_format t :
  get (get_type_mapping function_format) t function_format
  = resolve_type function_format t.
Proof.
  unfold get, get_type_mapping, resolve_type, get.
  rewrite lookup_union.
  destruct (FORMAT_TYPE_OVERRIDES !! function_format) as [overrides|]; simpl.
  - by destruct (overrides !! t) as [rule|], (BASE_TYPE_MAPPING !! t).
  - rewrite lookup_empty. by destruct (BASE_TYPE_MAPPING !! t).
Qed.


(** C5: on the schema with enum [true, false] and type boolean,
    [get_value_rule] returns the two words between parentheses and joined
    by a bar, spelled [True] and [False] for pythonic and [true] and [false]
    for json and xml; the words are bare, not quoted literals, so each result
    differs from the quoted text. *)
Theorem get_value_rule_boolean_enum :
  get_value_rule boolean_enum "pythonic" = Ok "(True | False)"
  ∧ get_value_rule boolean_enum "json" = Ok "(true | false)"
  ∧ get_value_rule boolean_enum "xml" = Ok "(true | false)"
  ∧ get_value_rule boolean_enum "pythonic"
    ≠ Ok ("(" +:+ dq +:+ "True" +:+ dq +:+ " | " +:+ dq +:+ "False" +:+ dq +:+ ")")
  ∧ get_value_rule boolean_enum "json"
    ≠ Ok ("(" +:+ dq +:+ "true" +:+ dq +:+ " | " +:+ dq +:+ "false" +:+ dq +:+ ")")
  ∧ get_value_rule boolean_enum "xml"
    ≠ Ok ("(" +:+ dq +:+ "true" +:+ dq +:+ " | " +:+ dq +:+ "false" +:+ dq +:+ ")").
Proof. repeat split; by vm_compute. Qed.

(** C6, as stated, fails on two schemas: with an empty list of types the
    result is the name of the format's top-level rule, not the join of no
    rule names; and with an enum next to the type the type is not resolved
    at all. *)
Lemma get_value_rule_type_counterexample :
  get_value_rule (Schema None (Some (TypeList []))) "json" = Ok "json"
  ∧ get_value_rule (Schema None (Some (TypeList []))) "json"
    ≠ Ok (join " | " (resolve_type "json" <$> []))
  ∧ get_value_rule (Schema (Some [PyStr "a"]) (Some (TypeName "string"))) "json"
    ≠ Ok (resolve_type "json" "string").
Proof. repeat split; by vm_compute. Qed.

(** C6, amended: for a schema without enum, a single type name resolves
    through the override table laid over the base mapping, with the name of
    the format's top-level rule for a type in neither; a non-empty list of
    types gives the resolved rules joined by a bar; an empty list of types,
    like a schema without type, gives the name of the format's top-level
    rule. *)
Theorem get_value_rule_type prop function_format :
  enum prop = None →
  (∀ t, type prop = Some (TypeName t) →
     get_value_rule prop function_format = Ok (resolve_type function_format t))
  ∧ (∀ ts, type prop = Some (TypeList ts) → ts ≠ [] →
       get_value_rule prop function_format
       = Ok (join " | " (resolve_type function_format <$> ts))
       ∧ length (resolve_type function_format <$> ts) = length ts)
  ∧ (type prop = Some (TypeList []) →
       get_value_rule prop function_format = Ok function_format)
  ∧ (type prop = None →
       get_value_rule prop function_format = Ok function_format)
  ∧ (∀ t, FORMAT_TYPE_OVERRIDES !! function_format ≫= (.!! t) = None →
       BASE_TYPE_MAPPING !! t = None →
       resolve_type function_format t = function_format).
Proof.
  intros Henum. split; [|split; [|split; [|split]]].
  - intros t Ht. rewrite (get_value_rule_of_type _ _ _ Henum Ht).
    unfold _handle_type. rewrite Ht. by rewrite get_type_mapping_resolve.
  - intros ts Hts Hne. split; [|apply length_fmap].
    rewrite (get_value_rule_of_type _ _ _ Henum Hts).
    unfold _handle_type. rewrite Hts.
    rewrite (list_fmap_ext _ (resolve_type function_format) ts)
      by (intros; apply get_type_mapping_resolve).
    destruct ts; [done |]. by rewrite fmap_cons.
  - intros Ht. rewrite (get_value_rule_of_type _ _ _ Henum Ht).
    unfold _handle_type. by rewrite Ht.
  - intros Ht. by apply get_value_rule_neither.
  - intros t Ho Hb. unfold resolve_type. by rewrite Ho, Hb.
Qed.

Lemma get_value_rule_type_witness :
  get_value_rule (Schema None (Some (TypeList ["integer"; "null"; "date"]))) "pythonic"
  = Ok (join " | " (resolve_type "pythonic" <$> ["integer"; "null"; "date"]))
  ∧ join " | " (resolve_type "pythonic" <$> ["integer"; "null"; "date"])
    = "basic_number | " +:+ dq +:+ "None" +:+ dq +:+ " | pythonic".
Proof.
  split; [|by vm_compute].
  apply (get_value_rule_type
           (Schema None (Some (TypeList ["integer"; "null"; "date"]))) "pythonic");
    [reflexivity | reflexivity | discriminate].
Defined.
End resolver.

(** ** Properties of the assembler *)

Section assembler.
Implicit Types (tools : list tool_def) (function_format : string).
Implicit Types (call_rule_fmt key_value_rule_fmt : option string).

(** The first of the lines is the root rule. *)
Lemma build_ebnf_lines_root tools function_format sequence_start_token
    sequence_end_token individual_call_start_token individual_call_end_token
    tool_call_separator call_rule_fmt key_value_rule_fmt key_value_separator
    lines :
  build_ebnf_lines tools function_format sequence_start_token
    sequence_end_token individual_call_start_token individual_call_end_token
    tool_call_separator call_rule_fmt key_value_rule_fmt key_value_separator
  = Ok lines →
  lines !! 0
  = Some ("root ::= "
          +:+ root_rule_of sequence_start_token sequence_end_token
                individual_call_start_token individual_call_end_token
                tool_call_separator).
Proof.
  rewrite build_ebnf_lines_unfold.
  by intros ([[ct art] kt] & _ & (rs & _ & [= <-])%bind_Ok)%bind_Ok.
Qed.

(** C7: with the sequence tokens [<tools>] and [</tools>], the separator
    [;] and no tokens around the single calls, the text that [build_ebnf]
    returns starts with the root rule
    [root ::= "<tools>" function_call ( ";" function_call )* "</tools>"], on a
    line of its own: each of the three quoted literals occurs in the rule
    exactly once, around and between two occurrences of [function_call]. *)
Theorem build_ebnf_root_wrapping tools function_format call_rule_fmt
    key_value_rule_fmt key_value_separator text :
  build_ebnf tools function_format (Some "<tools>") (Some "</tools>")
    None None (Some ";") call_rule_fmt key_value_rule_fmt key_value_separator
  = Ok text →
  (∃ rest, text = "root ::= " +:+ tools_root_rule +:+ nl +:+ rest)
  ∧ (∃ lines,
       text = join nl lines
       ∧ length lines = 3 + 2 * length tools
       ∧ lines !! 0 = Some ("root ::= " +:+ tools_root_rule))
  ∧ occurrences (dq +:+ "<tools>" +:+ dq) tools_root_rule = 1
  ∧ occurrences (dq +:+ "</tools>" +:+ dq) tools_root_rule = 1
  ∧ occurrences (dq +:+ ";" +:+ dq) tools_root_rule = 1
  ∧ occurrences "function_call" tools_root_rule = 2.
Proof.
  intros Htext.
  destruct (build_ebnf_Ok_lines _ _ _ _ _ _ _ _ _ _ _ Htext)
    as (lines & Hlines & -> & Hlen).
  pose proof (build_ebnf_lines_root _ _ _ _ _ _ _ _ _ _ _ Hlines) as Hroot.
  split; [|split; [|by vm_compute]].
  - destruct lines as [|first [|second lines]]; try (simpl in Hlen; lia).
    injection Hroot as ->.
    exists (join nl (second :: lines)).
    by rewrite join_lines_first, !append_assoc.
  - by exists lines.
Qed.

Lemma build_ebnf_root_wrapping_witness :
  ∃ text,
    build_ebnf [weather_tool] "json" (Some "<tools>") (Some "</tools>")
      None None (Some ";") None None "," = Ok text
    ∧ ∃ rest, text = "root ::= " +:+ tools_root_rule +:+ nl +:+ rest.
Proof.
  eexists. split; [by vm_compute |].
  eapply (build_ebnf_root_wrapping [weather_tool] "json" None None ",").
  by vm_compute.
Defined.

(** C9, as stated, fails: with an empty list of tools and the format [toml],
    which is none of the three, [build_ebnf] raises a [KeyError] and returns
    no text. *)
Lemma build_ebnf_no_tools_counterexample :
  build_ebnf [] "toml" None None None None None None None ","
  = Raise (KeyError "toml")
  ∧ ∀ text,
      build_ebnf [] "toml" None None None None None None None "," ≠ Ok text.
Proof. split; [by vm_compute | intros text; by vm_compute]. Qed.

(** C9, amended: with an empty list of tools and one of the three formats,
    [build_ebnf] does not raise: the lines are the root rule, the
    [function_call] rule with nothing on its right-hand side, and the base
    grammar of the format; no line comes from the loop over the tools. *)
Theorem build_ebnf_no_tools function_format sequence_start_token
    sequence_end_token individual_call_start_token individual_call_end_token
    tool_call_separator call_rule_fmt key_value_rule_fmt key_value_separator :
  known_format function_format →
  let root_rule :=
    root_rule_of sequence_start_token sequence_end_token
      individual_call_start_token individual_call_end_token
      tool_call_separator in
  let base_grammar := get grammar_dict function_format json_grammar_ebnf_str in
  build_ebnf_lines [] function_format sequence_start_token
    sequence_end_token individual_call_start_token individual_call_end_token
    tool_call_separator call_rule_fmt key_value_rule_fmt key_value_separator
  = Ok ["root ::= " +:+ root_rule; "function_call ::= "; base_grammar]
  ∧ build_ebnf [] function_format sequence_start_token
      sequence_end_token individual_call_start_token individual_call_end_token
      tool_call_separator call_rule_fmt key_value_rule_fmt key_value_separator
    = Ok ("root ::= " +:+ root_rule +:+ nl +:+ "function_call ::= " +:+ nl
          +:+ base_grammar).
Proof.
  intros Hfmt root_rule base_grammar.
  assert (build_ebnf_lines [] function_format sequence_start_token
    sequence_end_token individual_call_start_token individual_call_end_token
    tool_call_separator call_rule_fmt key_value_rule_fmt key_value_separator
    = Ok ["root ::= " +:+ root_rule; "function_call ::= "; base_grammar]) as Hl.
  { rewrite build_ebnf_lines_unfold.
    destruct (templates_known _ call_rule_fmt key_value_rule_fmt Hfmt)
      as (ct & art & kt & ->).
    done. }
  split; [done |]. unfold build_ebnf. rewrite Hl. simpl.
  by rewrite !join_cons_cons, !append_assoc.
Qed.

Lemma build_ebnf_no_tools_witness :
  build_ebnf [] "xml" None None None None None None None ","
  = Ok ("root ::= function_call" +:+ nl +:+ "function_call ::= " +:+ nl
        +:+ xml_grammar_ebnf_str).
Proof.
  refine (proj2 (build_ebnf_no_tools "xml" None None None None None None None "," _)).
  apply known_format_cases. auto.
Defined.

(** C2, as stated, fails: with the format [yaml], which is none of the
    three, [build_ebnf] raises a [KeyError] where with [json] and otherwise
    the same arguments it returns a grammar. *)
Lemma build_ebnf_format_fallback_counterexample :
  build_ebnf [] "yaml" None None None None None None None ","
  = Raise (KeyError "yaml")
  ∧ build_ebnf [] "yaml" None None None None None None None ","
    ≠ build_ebnf [] "json" None None None None None None None ",".
Proof. split; by vm_compute. Qed.

(** C2, amended: with a format that is none of json, pythonic and xml,
    [build_ebnf] returns no grammar: for every list of tools, every wrapping
    and with or without template overrides, the lookup of a template by the
    format raises a [KeyError] on the format. *)
Theorem build_ebnf_unknown_format tools function_format sequence_start_token
    sequence_end_token individual_call_start_token individual_call_end_token
    tool_call_separator call_rule_fmt key_value_rule_fmt key_value_separator :
  ¬ known_format function_format →
  build_ebnf tools function_format sequence_start_token
    sequence_end_token individual_call_start_token individual_call_end_token
    tool_call_separator call_rule_fmt key_value_rule_fmt key_value_separator
  = Raise (KeyError function_format).
Proof.
  intros Hfmt. unfold build_ebnf. rewrite build_ebnf_lines_unfold.
  unfold templates, call_template_of, args_template_of, getitem.
  unfold CALL_RULE_MAP, ARGUMENTS_RULE_MAP.
  rewrite !(registry_lookup_None _ _ _ _ Hfmt).
  by destruct (given call_rule_fmt).
Qed.

Lemma build_ebnf_unknown_format_witness :
  build_ebnf [weather_tool] "yaml" None None None None None
    (Some "{name}({arguments_rule})") (Some "{key}={valrule}") ","
  = Raise (KeyError "yaml").
Proof.
  apply build_ebnf_unknown_format.
  rewrite known_format_cases. by intros [? | [? | ?]].
Defined.
End assembler.

(** ** Properties of the partition *)

Section order.
Context {A : Type}.
Implicit Types (x y : A) (l : list A).

Lemma before_sublist x y l : before x y l ↔ [x; y] `sublist_of` l.
Proof.
  unfold before. split.
  - intros (l1 & l2 & l3 & ->).
    apply sublist_inserts_l, sublist_skip, sublist_inserts_l, sublist_skip.
    apply sublist_nil_l.
  - intros (l1 & k & -> & (l2 & l3 & -> & _)%sublist_cons_l)%sublist_cons_l.
    eauto.
Qed.

Lemma before_filter (P : A → Prop) `{∀ x, Decision (P x)} x y l :
  P x → P y → (before x y (filter P l) ↔ before x y l).
Proof.
  intros Hx Hy. split.
  - rewrite !before_sublist. intros Hsub.
    etrans; [done |]. apply sublist_filter.
  - intros (l1 & l2 & l3 & ->).
    exists (filter P l1), (filter P l2), (filter P l3).
    rewrite filter_app, filter_cons_True by done.
    by rewrite filter_app, filter_cons_True by done.
Qed.
End order.

Section partition_order.
Implicit Types (tool : tool_def) (p q : string).

(** C8: the required list is the subsequence of the declared property names
    that are in the required set and the optional list is the subsequence
    of the others; each declared name is in exactly one of the two; and two
    names of the same list are in the same order there as in the
    declaration. *)
Theorem partition_preserves_order tool :
  let declared := ordered_props_of tool in
  let required_set := required_props_of tool in
  required_list tool = filter (λ p, p ∈ required_set) declared
  ∧ optional_list tool = filter (λ p, p ∉ required_set) declared
  ∧ required_list tool `sublist_of` declared
  ∧ optional_list tool `sublist_of` declared
  ∧ (∀ p, p ∈ required_list tool ↔ p ∈ declared ∧ p ∈ required_set)
  ∧ (∀ p, p ∈ optional_list tool ↔ p ∈ declared ∧ p ∉ required_set)
  ∧ (∀ p q, p ∈ required_list tool → q ∈ required_list tool →
       (before p q (required_list tool) ↔ before p q declared))
  ∧ (∀ p q, p ∈ optional_list tool → q ∈ optional_list tool →
       (before p q (optional_list tool) ↔ before p q declared)).
Proof.
  intros declared required_set.
  unfold required_list, optional_list, required_of, optional_of.
  fold declared required_set.
  repeat apply conj; try done; try apply sublist_filter.
  - intros p. rewrite list_elem_of_filter. tauto.
  - intros p. rewrite list_elem_of_filter. tauto.
  - intros p q [Hp _]%list_elem_of_filter [Hq _]%list_elem_of_filter.
    by apply before_filter.
  - intros p q [Hp _]%list_elem_of_filter [Hq _]%list_elem_of_filter.
    by apply before_filter.
Qed.

Lemma partition_preserves_order_witness :
  before "unit" "days" (optional_list weather_tool)
  ↔ before "unit" "days" (ordered_props_of weather_tool).
Proof.
  apply (partition_preserves_order weather_tool).
  - change (optional_list weather_tool) with ["unit"; "days"]. set_solver.
  - change (optional_list weather_tool) with ["unit"; "days"]. set_solver.
Defined.
End partition_order.

Section required_without_property.
Implicit Types (props : list (string * schema)) (req : list string).

Lemma filter_ext_elem_of {A} (P Q : A → Prop) `{∀ x, Decision (P x)}
    `{∀ x, Decision (Q x)} (l : list A) :
  (∀ x, x ∈ l → P x ↔ Q x) → filter P l = filter Q l.
Proof.
  induction l as [|x l IH]; intros HPQ; [done |].
  rewrite !filter_cons.
  rewrite IH by (intros; apply HPQ; by right).
  destruct (decide (P x)) as [HP | HP], (decide (Q x)) as [HQ | HQ];
    try done; exfalso; apply (HPQ x) in HP || apply (HPQ x) in HQ;
    try done; by left.
Qed.

(** C10: a name under ["required"] that is no key of the property mapping
    is in neither part of the partition, and [build_ebnf] gives the same
    result, the same grammar or the same exception, as with that name
    taken out of the required set. *)
Theorem required_name_without_property tools_before tools_after tool_name
    props req req' x function_format sequence_start_token
    sequence_end_token individual_call_start_token individual_call_end_token
    tool_call_separator call_rule_fmt key_value_rule_fmt key_value_separator :
  x ∉ props.*1 →
  (list_to_set req' : gset string) = list_to_set req ∖ {[x]} →
  let tool := tool_of tool_name props req in
  let tool' := tool_of tool_name props req' in
  (x ∉ required_list tool)
  ∧ (x ∉ optional_list tool)
  ∧ required_list tool = required_list tool'
  ∧ optional_list tool = optional_list tool'
  ∧ build_ebnf (tools_before ++ tool :: tools_after) function_format
      sequence_start_token sequence_end_token individual_call_start_token
      individual_call_end_token tool_call_separator call_rule_fmt
      key_value_rule_fmt key_value_separator
    = build_ebnf (tools_before ++ tool' :: tools_after) function_format
        sequence_start_token sequence_end_token individual_call_start_token
        individual_call_end_token tool_call_separator call_rule_fmt
        key_value_rule_fmt key_value_separator.
Proof.
  intros Hx Hreq tool tool'.
  assert (∀ p, p ∈ props.*1 →
            p ∈ required_props_of tool ↔ p ∈ required_props_of tool') as Hset.
  { intros p Hp.
    change (required_props_of tool) with (list_to_set req : gset string).
    change (required_props_of tool') with (list_to_set req' : gset string).
    rewrite Hreq, elem_of_difference, elem_of_singleton.
    assert (p ≠ x) by (by intros ->). tauto. }
  assert (required_list tool = required_list tool') as Hr.
  { apply filter_ext_elem_of. intros p Hp. by apply Hset. }
  assert (optional_list tool = optional_list tool') as Ho.
  { apply filter_ext_elem_of. intros p Hp. by rewrite (Hset p Hp). }
  repeat apply conj; try done.
  - intros [_ Hin]%list_elem_of_filter. exact (Hx Hin).
  - intros [_ Hin]%list_elem_of_filter. exact (Hx Hin).
  - unfold build_ebnf. rewrite !build_ebnf_lines_unfold.
    destruct (templates _ _ _) as [[[ct art] kt]|e]; simpl; [|done].
    rewrite (mapM_app_cons_ext _ tools_before tools_after tool tool').
    + unfold header_rules. by rewrite !fmap_app, !fmap_cons.
    + unfold tool_rules. by rewrite Hr, Ho.
Qed.

Lemma required_name_without_property_witness :
  build_ebnf [tool_of "add" [("a", integer_schema); ("b", string_schema)]
                ["a"; "ghost"]]
    "json" None None None None None None None ","
  = build_ebnf [tool_of "add" [("a", integer_schema); ("b", string_schema)] ["a"]]
      "json" None None None None None None None ",".
Proof.
  apply (required_name_without_property [] [] "add"
           [("a", integer_schema); ("b", string_schema)] ["a"; "ghost"] ["a"]
           "ghost").
  - simpl. rewrite !elem_of_cons, elem_of_nil. by intros [? | [? | []]].
  - apply set_eq. intros p.
    rewrite elem_of_difference, !elem_of_list_to_set, elem_of_singleton.
    rewrite !elem_of_cons, elem_of_nil.
    split.
    + intros [-> | []]. split; [by left | discriminate].
    + intros [[-> | [-> | []]] Hne]; [by left | by destruct Hne].
Defined.
End required_without_property.

(** ** Properties of the property ordering combinator *)

Section ordering.
Implicit Types (tools : list tool_def) (tool : tool_def).
Implicit Types (fs rfs ofs : list string).

Lemma alternative_lookup sep fs i f :
  fs !! i = Some f →
  alternative sep fs i = f +:+ join EmptyString (opt_wrap sep <$> drop (S i) fs).
Proof. intros Hf. unfold alternative. by rewrite (drop_S _ _ _ Hf). Qed.

Lemma alternative_suffix sep fs i :
  alternative sep fs i = alternative sep (drop i fs) 0.
Proof. unfold alternative. by rewrite drop_0. Qed.

Lemma fragments_nil function_format key_value_template items fs :
  fragments function_format key_value_template items = Ok fs →
  fs = [] ↔ items.*1 = [].
Proof.
  intros Hlen%fragments_length.
  destruct fs, items; simpl in *; split; intros; by simplify_eq.
Qed.

Lemma has_char_chain (c : ascii) sep fs :
  c = "|"%char ∨ c = "?"%char →
  has_char c sep = false →
  Forall (λ f, has_char c f = false) fs →
  has_char c (chain sep fs) = false.
Proof.
  intros Hc Hsep Hfs. apply has_char_join; [|done].
  rewrite !has_char_append, Hsep. by destruct Hc as [-> | ->].
Qed.

Context (tools : list tool_def) (function_format : string).
Context (sequence_start_token sequence_end_token : option string).
Context (individual_call_start_token individual_call_end_token : option string).
Context (tool_call_separator call_rule_fmt key_value_rule_fmt : option string).
Context (key_value_separator : string).

Local Abbreviation built :=
  (build_ebnf_lines tools function_format sequence_start_token
     sequence_end_token individual_call_start_token individual_call_end_token
     tool_call_separator call_rule_fmt key_value_rule_fmt key_value_separator).

(** The arguments rule, among the lines, of a tool with optional properties
    only. *)
Lemma arguments_optional_only lines k tool :
  built = Ok lines →
  tools !! k = Some tool →
  properties_dict tool →
  required_list tool = [] →
  optional_list tool ≠ [] →
  ∃ key_value_template ofs,
    key_value_template_of function_format key_value_rule_fmt = Ok key_value_template
    ∧ fragments function_format key_value_template (optional_items tool) = Ok ofs
    ∧ length ofs = length (optional_list tool)
    ∧ arguments_rule_of lines k
      = Some ("arguments_" +:+ name (function tool) +:+ " ::= "
              +:+ wrap_arguments function_format
                    ("( "
                     +:+ join " | "
                           (alternative key_value_separator ofs <$> seq 0 (length ofs))
                     +:+ " )?"))
    ∧ (∀ i f, ofs !! i = Some f →
         alternative key_value_separator ofs i
         = f +:+ join EmptyString
                   (opt_wrap key_value_separator <$> drop (S i) ofs)
         ∧ alternative key_value_separator ofs i
           = alternative key_value_separator (drop i ofs) 0).
Proof.
  intros Hlines Hk Hnd Hreq Hopt.
  destruct (build_ebnf_lines_tool _ _ _ _ _ _ _ _ _ _ _ _ _ Hlines Hk Hnd)
    as (kt & rfs & ofs & crule & Hkt & Hrfs & Hofs & _ & Harg).
  exists kt, ofs.
  assert (rfs = []) as ->.
  { apply (fragments_nil _ _ _ _ Hrfs). by rewrite <-required_list_items. }
  assert (length ofs = length (optional_list tool)) as Hlen.
  { rewrite (fragments_length _ _ _ _ Hofs), optional_list_items.
    by rewrite length_fmap. }
  repeat apply conj; try done.
  - rewrite Harg. destruct ofs as [|f ofs]; [|done].
    by destruct (optional_list tool).
  - intros i f Hf. split; [by apply alternative_lookup | apply alternative_suffix].
Qed.

(** The arguments rule, among the lines, of a tool with required and with
    optional properties. *)
Lemma arguments_required_and_optional lines k tool :
  built = Ok lines →
  tools !! k = Some tool →
  properties_dict tool →
  required_list tool ≠ [] →
  optional_list tool ≠ [] →
  ∃ key_value_template rfs ofs,
    key_value_template_of function_format key_value_rule_fmt = Ok key_value_template
    ∧ fragments function_format key_value_template (required_items tool) = Ok rfs
    ∧ fragments function_format key_value_template (optional_items tool) = Ok ofs
    ∧ arguments_rule_of lines k
      = Some ("arguments_" +:+ name (function tool) +:+ " ::= "
              +:+ wrap_arguments function_format
                    (chain key_value_separator rfs
                     +:+ " ( " +:+ dq +:+ key_value_separator +:+ dq +:+ " ( "
                     +:+ alternation key_value_separator ofs
                     +:+ " ) )?")).
Proof.
  intros Hlines Hk Hnd Hreq Hopt.
  destruct (build_ebnf_lines_tool _ _ _ _ _ _ _ _ _ _ _ _ _ Hlines Hk Hnd)
    as (kt & rfs & ofs & crule & Hkt & Hrfs & Hofs & _ & Harg).
  exists kt, rfs, ofs. repeat apply conj; try done.
  rewrite Harg.
  destruct rfs as [|rf rfs].
  { destruct Hreq. rewrite required_list_items.
    by apply (fragments_nil _ _ _ _ Hrfs). }
  destruct ofs as [|f ofs]; [|done].
  destruct Hopt. rewrite optional_list_items.
  by apply (fragments_nil _ _ _ _ Hofs).
Qed.

(** The arguments rule, among the lines, of a tool with required properties
    only. *)
Lemma arguments_all_required lines k tool :
  built = Ok lines →
  tools !! k = Some tool →
  properties_dict tool →
  optional_list tool = [] →
  ∃ key_value_template rfs,
    key_value_template_of function_format key_value_rule_fmt = Ok key_value_template
    ∧ fragments function_format key_value_template (required_items tool) = Ok rfs
    ∧ length rfs = length (ordered_props_of tool)
    ∧ arguments_rule_of lines k
      = Some ("arguments_" +:+ name (function tool) +:+ " ::= "
              +:+ wrap_arguments function_format (chain key_value_separator rfs))
    ∧ (∀ c : ascii, c = "|"%char ∨ c = "?"%char →
         has_char c key_value_separator = false →
         Forall (λ f, has_char c f = false) rfs →
         has_char c (chain key_value_separator rfs) = false).
Proof.
  intros Hlines Hk Hnd Hopt.
  destruct (build_ebnf_lines_tool _ _ _ _ _ _ _ _ _ _ _ _ _ Hlines Hk Hnd)
    as (kt & rfs & ofs & crule & Hkt & Hrfs & Hofs & _ & Harg).
  exists kt, rfs.
  assert (ofs = []) as ->.
  { apply (fragments_nil _ _ _ _ Hofs). by rewrite <-optional_list_items. }
  repeat apply conj; try done.
  - rewrite (fragments_length _ _ _ _ Hrfs).
    rewrite <-(length_fmap fst (required_items tool)), <-required_list_items.
    unfold required_list, optional_list, required_of, optional_of in *.
    rewrite <-(filter_app_complement (λ p, p ∈ required_props_of tool)
                 (ordered_props_of tool)) at 2.
    by rewrite Hopt, app_nil_r.
  - rewrite Harg. by destruct rfs.
  - intros c. apply has_char_chain.
Qed.

Local Abbreviation built_text :=
  (build_ebnf tools function_format sequence_start_token
     sequence_end_token individual_call_start_token individual_call_end_token
     tool_call_separator call_rule_fmt key_value_rule_fmt key_value_separator).

(** C1: for a tool of which no property is required and at least one is
    optional, the text that [build_ebnf] returns has, as the arguments rule of
    the tool among its lines, inside the
    arguments template, an alternation between [( ] and [ )?]: one
    alternative per optional property, joined by a bar, where alternative [i]
    is the key-value fragment of optional property [i] followed by
    [ ( "SEP" f )?] for each later fragment [f], in declaration order; so
    alternative [i] is made of the fragments from [i] on only. *)
Theorem optional_only_alternation text k tool :
  built_text = Ok text →
  tools !! k = Some tool →
  properties_dict tool →
  required_list tool = [] →
  optional_list tool ≠ [] →
  ∃ lines key_value_template ofs,
    text = join nl lines
    ∧ length lines = 3 + 2 * length tools
    ∧ key_value_template_of function_format key_value_rule_fmt = Ok key_value_template
    ∧ fragments function_format key_value_template (optional_items tool) = Ok ofs
    ∧ length ofs = length (optional_list tool)
    ∧ arguments_rule_of lines k
      = Some ("arguments_" +:+ name (function tool) +:+ " ::= "
              +:+ wrap_arguments function_format
                    ("( "
                     +:+ join " | "
                           (alternative key_value_separator ofs <$> seq 0 (length ofs))
                     +:+ " )?"))
    ∧ (∀ i f, ofs !! i = Some f →
         alternative key_value_separator ofs i
         = f +:+ join EmptyString
                   (opt_wrap key_value_separator <$> drop (S i) ofs)
         ∧ alternative key_value_separator ofs i
           = alternative key_value_separator (drop i ofs) 0).
Proof.
  intros Htext Hk Hnd Hreq Hopt.
  destruct (build_ebnf_Ok_lines _ _ _ _ _ _ _ _ _ _ _ Htext)
    as (lines & Hlines & -> & Hlen).
  destruct (arguments_optional_only lines k tool Hlines Hk Hnd Hreq Hopt)
    as (kt & ofs & H).
  by exists lines, kt, ofs.
Qed.

(** C3: for a tool with at least one required and at least one optional
    property, the text that [build_ebnf] returns has, as the arguments rule of
    the tool among its lines, the chain of the required fragments,
    directly followed by [ ( "SEP" ( ], the alternation of the optional
    fragments and [ ) )?]: the alternation and the one separator before it
    are inside one omittable group. *)
Theorem required_then_gated_optional text k tool :
  built_text = Ok text →
  tools !! k = Some tool →
  properties_dict tool →
  required_list tool ≠ [] →
  optional_list tool ≠ [] →
  ∃ lines key_value_template rfs ofs,
    text = join nl lines
    ∧ length lines = 3 + 2 * length tools
    ∧ key_value_template_of function_format key_value_rule_fmt = Ok key_value_template
    ∧ fragments function_format key_value_template (required_items tool) = Ok rfs
    ∧ fragments function_format key_value_template (optional_items tool) = Ok ofs
    ∧ arguments_rule_of lines k
      = Some ("arguments_" +:+ name (function tool) +:+ " ::= "
              +:+ wrap_arguments function_format
                    (chain key_value_separator rfs
                     +:+ " ( " +:+ dq +:+ key_value_separator +:+ dq +:+ " ( "
                     +:+ alternation key_value_separator ofs
                     +:+ " ) )?")).
Proof.
  intros Htext Hk Hnd Hreq Hopt.
  destruct (build_ebnf_Ok_lines _ _ _ _ _ _ _ _ _ _ _ Htext)
    as (lines & Hlines & -> & Hlen).
  destruct (arguments_required_and_optional lines k tool Hlines Hk Hnd Hreq Hopt)
    as (kt & rfs & ofs & H).
  by exists lines, kt, rfs, ofs.
Qed.

(** C4, amended: for a tool of which every property is required, the text
    that [build_ebnf] returns has, as the arguments rule of the tool among its
    lines, exactly the key-value fragments of the properties,
    in declaration order, joined by [ "SEP" ]; the join adds no bar and no
    question mark: when neither the separator nor a fragment holds one,
    neither does the combined rule. *)
Theorem all_required_chain text k tool :
  built_text = Ok text →
  tools !! k = Some tool →
  properties_dict tool →
  optional_list tool = [] →
  ∃ lines key_value_template rfs,
    text = join nl lines
    ∧ length lines = 3 + 2 * length tools
    ∧ key_value_template_of function_format key_value_rule_fmt = Ok key_value_template
    ∧ fragments function_format key_value_template (required_items tool) = Ok rfs
    ∧ length rfs = length (ordered_props_of tool)
    ∧ arguments_rule_of lines k
      = Some ("arguments_" +:+ name (function tool) +:+ " ::= "
              +:+ wrap_arguments function_format (chain key_value_separator rfs))
    ∧ (∀ c : ascii, c = "|"%char ∨ c = "?"%char →
         has_char c key_value_separator = false →
         Forall (λ f, has_char c f = false) rfs →
         has_char c (chain key_value_separator rfs) = false).
Proof.
  intros Htext Hk Hnd Hopt.
  destruct (build_ebnf_Ok_lines _ _ _ _ _ _ _ _ _ _ _ Htext)
    as (lines & Hlines & -> & Hlen).
  destruct (arguments_all_required lines k tool Hlines Hk Hnd Hopt)
    as (kt & rfs & H).
  by exists lines, kt, rfs.
Qed.
End ordering.

(** ** The combinator on the sample tools *)

Section samples.
Lemma sample_properties_dict (tool : tool_def) :
  bool_decide (NoDup (ordered_props_of tool)) = true → properties_dict tool.
Proof. apply bool_decide_eq_true_1. Qed.

Lemma optional_only_alternation_witness :
  ∃ text,
    build_ebnf [search_tool] "json" None None None None None None None ","
    = Ok text
    ∧ ∃ lines key_value_template ofs,
        text = join nl lines
        ∧ length lines = 3 + 2 * length [search_tool]
        ∧ key_value_template_of "json" None = Ok key_value_template
        ∧ fragments "json" key_value_template (optional_items search_tool) = Ok ofs
        ∧ length ofs = length (optional_list search_tool)
        ∧ arguments_rule_of lines 0
          = Some ("arguments_" +:+ name (function search_tool) +:+ " ::= "
                  +:+ wrap_arguments "json"
                        ("( "
                         +:+ join " | " (alternative "," ofs <$> seq 0 (length ofs))
                         +:+ " )?"))
        ∧ (∀ i f, ofs !! i = Some f →
             alternative "," ofs i
             = f +:+ join EmptyString (opt_wrap "," <$> drop (S i) ofs)
             ∧ alternative "," ofs i = alternative "," (drop i ofs) 0).
Proof.
  eexists. split; [by vm_compute |].
  apply (optional_only_alternation [search_tool] "json" None None None None
           None None None ",").
  - by vm_compute.
  - reflexivity.
  - apply sample_properties_dict. by vm_compute.
  - by vm_compute.
  - by vm_compute.
Defined.

Lemma required_then_gated_optional_witness :
  ∃ text,
    build_ebnf [weather_tool] "pythonic" None None None None None None None ","
    = Ok text
    ∧ ∃ lines key_value_template rfs ofs,
        text = join nl lines
        ∧ length lines = 3 + 2 * length [weather_tool]
        ∧ key_value_template_of "pythonic" None = Ok key_value_template
        ∧ fragments "pythonic" key_value_template (required_items weather_tool) = Ok rfs
        ∧ fragments "pythonic" key_value_template (optional_items weather_tool) = Ok ofs
        ∧ arguments_rule_of lines 0
          = Some ("arguments_" +:+ name (function weather_tool) +:+ " ::= "
                  +:+ wrap_arguments "pythonic"
                        (chain "," rfs
                         +:+ " ( " +:+ dq +:+ "," +:+ dq +:+ " ( "
                         +:+ alternation "," ofs
                         +:+ " ) )?")).
Proof.
  eexists. split; [by vm_compute |].
  apply (required_then_gated_optional [weather_tool] "pythonic" None None None
           None None None None ",").
  - by vm_compute.
  - reflexivity.
  - apply sample_properties_dict. by vm_compute.
  - by vm_compute.
  - by vm_compute.
Defined.

(** C4, as stated, fails: every property of [toggle_tool] is required, and
    in the pythonic format the text that [build_ebnf] returns has an
    arguments rule that holds a bar, which comes with the rule of the boolean
    type. *)
Lemma all_required_counterexample :
  optional_list toggle_tool = []
  ∧ build_ebnf [toggle_tool] "pythonic" None None None None None None None ","
    = Ok (join nl
            ["root ::= function_call";
             "function_call ::= call_toggle";
             "call_toggle ::= " +:+ dq +:+ "toggle" +:+ dq +:+ " " +:+ dq +:+ "("
             +:+ dq +:+ " arguments_toggle " +:+ dq +:+ ")" +:+ dq;
             "arguments_toggle ::= " +:+ toggle_arguments;
             pythonic_grammar_ebnf_str])
  ∧ has_char "|" toggle_arguments = true.
Proof. repeat split; by vm_compute. Qed.

Lemma all_required_chain_witness :
  ∃ text,
    build_ebnf [add_tool] "xml" None None None None None None None ","
    = Ok text
    ∧ ∃ lines key_value_template rfs,
        text = join nl lines
        ∧ length lines = 3 + 2 * length [add_tool]
        ∧ key_value_template_of "xml" None = Ok key_value_template
        ∧ fragments "xml" key_value_template (required_items add_tool) = Ok rfs
        ∧ length rfs = length (ordered_props_of add_tool)
        ∧ arguments_rule_of lines 0
          = Some ("arguments_" +:+ name (function add_tool) +:+ " ::= "
                  +:+ wrap_arguments "xml" (chain "," rfs))
        ∧ (∀ c : ascii, c = "|"%char ∨ c = "?"%char →
             has_char c "," = false →
             Forall (λ f, has_char c f = false) rfs →
             has_char c (chain "," rfs) = false).
Proof.
  eexists. split; [by vm_compute |].
  apply (all_required_chain [add_tool] "xml" None None None None None None
           None ",").
  - by vm_compute.
  - reflexivity.
  - apply sample_properties_dict. by vm_compute.
  - by vm_compute.
Defined.
End samples.


(** ** The rules of the registry's templates *)

Section registry_texts.
Implicit Types (function_format key valrule tool_name : string).


Lemma format_call_text function_format call_template tool_name :
  CALL_RULE_MAP !! function_format = Some call_template →
  format call_template (call_kwargs tool_name)
  = Ok (default_call_rule function_format tool_name).
Proof.
  intros [[-> ->] | [[-> ->] | [-> ->]]]%registry_lookup; by vm_compute.
Qed.

Lemma format_from_Text_cons (kwargs : gmap string string) c (rest : string) :
  format_from kwargs Text (String c rest)
  = if Ascii.eqb c "{" then format_from kwargs Opened rest
    else if Ascii.eqb c "}" then format_from kwargs Closed rest
    else format_from kwargs Text rest ≫= λ r, Ok (String c r).
Proof. reflexivity. Qed.

(** Literal text without braces in front of a template is copied. *)
Lemma format_from_text (kwargs : gmap string string) (text tmpl : string) :
  has_char "{" text = false → has_char "}" text = false →
  format_from kwargs Text (text +:+ tmpl)
  = format_from kwargs Text tmpl ≫= λ r, Ok (text +:+ r).
Proof.
  induction text as [|c text IH].
  - intros _ _. change (EmptyString +:+ tmpl) with tmpl.
    by destruct (format_from kwargs Text tmpl).
  - change (has_char "{" (String c text))
      with (Ascii.eqb "{" c || has_char "{" text).
    change (has_char "}" (String c text))
      with (Ascii.eqb "}" c || has_char "}" text).
    intros [Hc1 Hopen]%orb_false_elim [Hc2 Hclose]%orb_false_elim.
    rewrite append_cons, format_from_Text_cons.
    rewrite (Ascii.eqb_sym c), Hc1, (Ascii.eqb_sym c), Hc2, (IH Hopen Hclose).
    by destruct (format_from kwargs Text tmpl).
Qed.

(** The field [{name}] in front of a template is replaced by the keyword
    argument [name]. *)
Lemma format_from_name (kwargs : gmap string string) (value tmpl : string) :
  kwargs !! "name" = Some value →
  format_from kwargs Text ("{name}" +:+ tmpl)
  = format_from kwargs Text tmpl ≫= λ r, Ok (value +:+ r).
Proof.
  intros Hname.
  change ("{name}" +:+ tmpl)
    with (String "{" (String "n" (String "a" (String "m" (String "e"
            (String "}" tmpl)))))).
  simpl. change ((("n" +:+ "a") +:+ "m") +:+ "e") with "name".
  unfold get_field. change (all_digits "name") with false.
  unfold getitem. by rewrite Hname.
Qed.

Lemma format_call_override (call_rule_fmt : string) tool_name :
  format ("call_{name} ::= " +:+ call_rule_fmt) (call_kwargs tool_name)
  = format call_rule_fmt (call_kwargs tool_name)
    ≫= λ body, Ok ("call_" +:+ tool_name +:+ " ::= " +:+ body).
Proof.
  unfold format.
  change ("call_{name} ::= " +:+ call_rule_fmt)
    with ("call_" +:+ "{name}" +:+ " ::= " +:+ call_rule_fmt).
  rewrite format_from_text by done.
  rewrite (format_from_name _ tool_name) by done.
  rewrite format_from_text by done.
  destruct (format_from _ Text call_rule_fmt) as [body|e]; simpl; [|done].
  done.
Qed.
End registry_texts.

(** ** More on the value rule resolver *)

Section enums.
Implicit Types (prop : schema) (function_format : string) (vs : list value).






(** X3: on a schema whose enum, if it has one, holds no integer of more
    than 4300 digits (which [str] refuses to print, with a [ValueError]),
    [get_value_rule] raises for no format, although [_handle_enum] and
    [_handle_type] raise a [KeyError] on a schema without the key they read:
    each is called only where the key is present. *)
Theorem get_value_rule_never_raises prop function_format :
  schema_printable prop = true →
  (∃ rule, get_value_rule prop function_format = Ok rule)
  ∧ (enum prop = None → _handle_enum prop function_format = Raise (KeyError "enum"))
  ∧ (type prop = None → _handle_type prop function_format = Raise (KeyError "type")).
Proof.
  intros _. split; [apply get_value_rule_total |].
  split; intros H; [unfold _handle_enum | unfold _handle_type]; by rewrite H.
Qed.

Lemma get_value_rule_never_raises_witness :
  schema_printable (Schema (Some [PyInt 7; PyInt (-12)]) (Some (TypeName "integer")))
  = true
  ∧ _handle_type (Schema (Some [PyInt 7; PyInt (-12)]) None) "json"
    = Raise (KeyError "type")
  ∧ ∃ rule,
      get_value_rule (Schema (Some [PyInt 7; PyInt (-12)]) (Some (TypeName "integer")))
        "json" = Ok rule.
Proof.
  split; [by vm_compute |].
  split.
  - apply (get_value_rule_never_raises (Schema (Some [PyInt 7; PyInt (-12)]) None)
             "json"); by vm_compute.
  - apply (get_value_rule_never_raises
             (Schema (Some [PyInt 7; PyInt (-12)]) (Some (TypeName "integer")))
             "json"). by vm_compute.
Defined.

(** X4: the type table of a format has the same type names as the base
    mapping, and the same rule for each of them but for boolean and null in
    the pythonic format and string in the xml format. *)
Theorem get_type_mapping_overrides function_format t :
  (is_Some (get_type_mapping function_format !! t) ↔ is_Some (BASE_TYPE_MAPPING !! t))
  ∧ (¬ (function_format = "pythonic" ∧ (t = "boolean" ∨ t = "null")) →
     ¬ (function_format = "xml" ∧ t = "string") →
     get_type_mapping function_format !! t = BASE_TYPE_MAPPING !! t).
Proof.
  unfold get_type_mapping, get. rewrite lookup_union.
  destruct (FORMAT_TYPE_OVERRIDES !! function_format) as [overrides|] eqn:Hov;
    cbn [default from_option id].
  - apply elem_of_list_to_map_2 in Hov.
    rewrite !elem_of_cons, elem_of_nil in Hov.
    destruct Hov as [Hov | [Hov | []]]; apply pair_equal_spec in Hov as [-> ->].
    + destruct (decide (t = "boolean")) as [-> | Hb];
        [split; [split; intros _; vm_compute; eauto | tauto] |].
      destruct (decide (t = "null")) as [-> | Hn];
        [split; [split; intros _; vm_compute; eauto | tauto] |].
      rewrite (not_elem_of_list_to_map_1 _ t).
      * by destruct (BASE_TYPE_MAPPING !! t).
      * rewrite !fmap_cons, fmap_nil, !elem_of_cons, elem_of_nil. simpl. tauto.
    + destruct (decide (t = "string")) as [-> | Hs];
        [split; [split; intros _; vm_compute; eauto | tauto] |].
      rewrite (not_elem_of_list_to_map_1 _ t).
      * by destruct (BASE_TYPE_MAPPING !! t).
      * rewrite !fmap_cons, fmap_nil, !elem_of_cons, elem_of_nil. simpl. tauto.
  - rewrite lookup_empty. by destruct (BASE_TYPE_MAPPING !! t).
Qed.

Lemma get_type_mapping_overrides_witness :
  get_type_mapping "pythonic" !! "integer" = BASE_TYPE_MAPPING !! "integer".
Proof.
  apply (get_type_mapping_overrides "pythonic" "integer").
  - by intros [_ [? | ?]].
  - by intros [? _].
Defined.
End enums.

(** ** More on the assembler *)

Section rules_of_tools.
Implicit Types (tools : list tool_def) (tool : tool_def) (lines : list string).

Lemma mapM_ext_Forall {A B} (f g : A → result B) (l : list A) :
  Forall (λ x, f x = g x) l → mapM f l = mapM g l.
Proof.
  induction 1 as [|x l Hx _ IH]; [done |]. simpl. by rewrite Hx, IH.
Qed.

Lemma tool_rules_call function_format call_template args_template
    key_value_template key_value_separator tool call_rule arguments_rule :
  tool_rules function_format call_template args_template key_value_template
    key_value_separator tool = Ok [call_rule; arguments_rule] →
  format call_template (call_kwargs (name (function tool))) = Ok call_rule.
Proof.
  unfold tool_rules.
  intros (d & _ & (combined & _ & (arule & _ & (crule & Hcr & H)
    %bind_Ok)%bind_Ok)%bind_Ok)%bind_Ok.
  by injection H as <- _.
Qed.

(** The rules of tool [k], among the lines, are those of the body of the
    loop on that tool. *)
Lemma build_ebnf_lines_rules tools function_format sequence_start_token
    sequence_end_token individual_call_start_token individual_call_end_token
    tool_call_separator call_rule_fmt key_value_rule_fmt key_value_separator
    lines k tool :
  build_ebnf_lines tools function_format sequence_start_token
    sequence_end_token individual_call_start_token individual_call_end_token
    tool_call_separator call_rule_fmt key_value_rule_fmt key_value_separator
  = Ok lines →
  tools !! k = Some tool →
  ∃ call_template args_template key_value_template call_rule arguments_rule,
    templates function_format call_rule_fmt key_value_rule_fmt
    = Ok (call_template, args_template, key_value_template)
    ∧ tool_rules function_format call_template args_template key_value_template
        key_value_separator tool = Ok [call_rule; arguments_rule]
    ∧ call_rule_of lines k = Some call_rule
    ∧ arguments_rule_of lines k = Some arguments_rule.
Proof.
  rewrite build_ebnf_lines_unfold.
  intros ([[ct art] kt] & Ht & (rs & Hrs & [= <-])%bind_Ok)%bind_Ok Hk.
  destruct (mapM_Ok_lookup _ _ _ _ _ Hrs Hk) as (rules & Hrules & Hrk).
  pose proof (tool_rules_length _ _ _ _ _ _ _ Hrules) as Hlen.
  destruct rules as [|c [|a [|x rules]]]; try done.
  assert (Forall (λ r : list string, length r = 2) rs) as Hall.
  { eapply mapM_Ok_Forall; [done |]. intros ??. apply tool_rules_length. }
  destruct (concat_pairs_lookup _ _ _ _ Hall Hrk) as [Hc Ha].
  exists ct, art, kt, c, a. repeat apply conj; try done.
  - unfold call_rule_of, header_rules. simpl. by apply lookup_app_l_Some.
  - unfold arguments_rule_of, header_rules. simpl. by apply lookup_app_l_Some.
Qed.
End rules_of_tools.

Section assembler_more.
Context (tools : list tool_def) (function_format : string).
Context (sequence_start_token sequence_end_token : option string).
Context (individual_call_start_token individual_call_end_token : option string).
Context (tool_call_separator call_rule_fmt key_value_rule_fmt : option string).
Context (key_value_separator : string).

Local Abbreviation built_lines :=
  (build_ebnf_lines tools function_format sequence_start_token
     sequence_end_token individual_call_start_token individual_call_end_token
     tool_call_separator call_rule_fmt key_value_rule_fmt key_value_separator).

(** X5: whenever [build_ebnf] returns, its lines are the root rule, the
    [function_call] rule, which is the alternation of [call_<name>] over the
    tools in the order of the input, two rules per tool, and last the base
    grammar of the format itself: the format is one of the three, and the
    json default of the last lookup is not what gives it. *)
Theorem build_ebnf_layout lines :
  built_lines = Ok lines →
  length lines = 3 + 2 * length tools
  ∧ lines !! 1
    = Some ("function_call ::= "
            +:+ join " | " ((λ tool, "call_" +:+ name (function tool)) <$> tools))
  ∧ known_format function_format
  ∧ ∃ base_grammar,
      grammar_dict !! function_format = Some base_grammar
      ∧ last lines = Some base_grammar.
Proof.
  rewrite build_ebnf_lines_unfold.
  intros ([[ct art] kt] & Ht & (rs & Hrs & [= <-])%bind_Ok)%bind_Ok.
  apply templates_Ok in Ht as (_ & Hart & _).
  assert (known_format function_format) as Hfmt.
  { apply known_format_cases. apply registry_lookup in Hart. tauto. }
  assert (Forall (λ r : list string, length r = 2) rs) as Hall.
  { eapply mapM_Ok_Forall; [done |]. intros ??. apply tool_rules_length. }
  repeat apply conj; try done.
  - unfold header_rules. simpl.
    rewrite length_app, (concat_pairs_length _ Hall), (mapM_Ok_length _ _ _ Hrs).
    simpl. lia.
  - exists (get grammar_dict function_format json_grammar_ebnf_str). split.
    + by apply known_format_cases in Hfmt as [-> | [-> | ->]].
    + unfold header_rules. simpl. rewrite !app_comm_cons. apply last_snoc.
Qed.

Local Abbreviation built_text :=
  (build_ebnf tools function_format sequence_start_token
     sequence_end_token individual_call_start_token individual_call_end_token
     tool_call_separator call_rule_fmt key_value_rule_fmt key_value_separator).

(** X6: with the call template of the registry, that is without an override
    of it, the text that [build_ebnf] returns has, as the call rule of each
    tool among its lines, the text of the format around the name of the tool
    and the name of its arguments rule. *)
Theorem default_call_rule_emitted text k tool :
  built_text = Ok text →
  tools !! k = Some tool →
  given call_rule_fmt = false →
  ∃ lines,
    text = join nl lines
    ∧ length lines = 3 + 2 * length tools
    ∧ call_rule_of lines k
      = Some (default_call_rule function_format (name (function tool))).
Proof.
  intros Htext Hk Hgiven.
  destruct (build_ebnf_Ok_lines _ _ _ _ _ _ _ _ _ _ _ Htext)
    as (lines & Hlines & -> & Hlen).
  exists lines. do 2 (split; [done |]).
  destruct (build_ebnf_lines_rules _ _ _ _ _ _ _ _ _ _ _ _ _ Hlines Hk)
    as (ct & art & kt & c & a & Ht & Hrules & -> & _).
  apply templates_Ok in Ht as (Hct & _ & _).
  unfold call_template_of in Hct. rewrite Hgiven in Hct.
  apply getitem_Ok in Hct.
  apply tool_rules_call in Hrules.
  rewrite (format_call_text _ _ _ Hct) in Hrules. by injection Hrules as <-.
Qed.

(** X7: with an override [fmt] of the call template, the text that
    [build_ebnf] returns has, as the call rule of each tool among its lines,
    [call_<name> ::= ] followed by what [fmt] gives when formatted with the
    name of the tool and the name of its arguments rule; the override replaces
    the right-hand side only. *)
Theorem call_rule_override_emitted text k tool fmt :
  built_text = Ok text →
  tools !! k = Some tool →
  call_rule_fmt = Some fmt →
  fmt ≠ EmptyString →
  ∃ lines body,
    text = join nl lines
    ∧ length lines = 3 + 2 * length tools
    ∧ format fmt (call_kwargs (name (function tool))) = Ok body
    ∧ call_rule_of lines k
      = Some ("call_" +:+ name (function tool) +:+ " ::= " +:+ body).
Proof.
  intros Htext Hk Hgiven Hfmt.
  destruct (build_ebnf_Ok_lines _ _ _ _ _ _ _ _ _ _ _ Htext)
    as (lines & Hlines & -> & Hlen).
  revert Hlines. rewrite Hgiven. intros Hlines.
  destruct (build_ebnf_lines_rules _ _ _ _ _ _ _ _ _ _ _ _ _ Hlines Hk)
    as (ct & art & kt & c & a & Ht & Hrules & Hcall & _).
  apply templates_Ok in Ht as (Hct & _ & _).
  unfold call_template_of, given in Hct.
  rewrite (proj2 (String.eqb_neq fmt EmptyString) Hfmt) in Hct.
  injection Hct as <-.
  apply tool_rules_call in Hrules.
  rewrite format_call_override in Hrules.
  apply bind_Ok in Hrules as (body & Hbody & [= <-]).
  by exists lines, body.
Qed.

(** X8: for a tool without properties (no parameters at all, no
    ["properties"] in them, or an empty property mapping) the text that
    [build_ebnf] returns has, as the arguments rule of the tool among its
    lines, the arguments template around the empty string: two quoted braces
    with two spaces between them for json, nothing for pythonic and xml. *)
Theorem no_properties_arguments text k tool :
  built_text = Ok text →
  tools !! k = Some tool →
  properties_of tool = [] →
  (∃ lines,
     text = join nl lines
     ∧ length lines = 3 + 2 * length tools
     ∧ arguments_rule_of lines k
       = Some ("arguments_" +:+ name (function tool) +:+ " ::= "
               +:+ wrap_arguments function_format EmptyString))
  ∧ wrap_arguments "json" EmptyString = dq +:+ "{" +:+ dq +:+ "  " +:+ dq +:+ "}" +:+ dq
  ∧ wrap_arguments "pythonic" EmptyString = EmptyString
  ∧ wrap_arguments "xml" EmptyString = EmptyString.
Proof.
  intros Htext Hk Hprops. split; [|done].
  destruct (build_ebnf_Ok_lines _ _ _ _ _ _ _ _ _ _ _ Htext)
    as (lines & Hlines & -> & Hlen).
  exists lines. do 2 (split; [done |]).
  assert (properties_dict tool) as Hnd.
  { unfold properties_dict, ordered_props_of. rewrite Hprops. constructor. }
  destruct (build_ebnf_lines_tool _ _ _ _ _ _ _ _ _ _ _ _ _ Hlines Hk Hnd)
    as (kt & rfs & ofs & crule & _ & Hrfs & Hofs & _ & ->).
  unfold required_items, optional_items in *. rewrite Hprops in *.
  by injection Hrfs as <-; injection Hofs as <-.
Qed.

(** X9: the rules of a tool are those it has when it is the only tool and
    nothing is wrapped: they depend on the format, the templates and the
    key-value separator, not on the other tools, on the position of the tool
    or on the wrapping tokens. *)
Theorem tool_rules_independent lines k tool :
  built_lines = Ok lines →
  tools !! k = Some tool →
  ∃ lines',
    build_ebnf_lines [tool] function_format None None None None None
      call_rule_fmt key_value_rule_fmt key_value_separator = Ok lines'
    ∧ is_Some (call_rule_of lines k)
    ∧ is_Some (arguments_rule_of lines k)
    ∧ call_rule_of lines k = call_rule_of lines' 0
    ∧ arguments_rule_of lines k = arguments_rule_of lines' 0.
Proof.
  intros Hlines Hk.
  destruct (build_ebnf_lines_rules _ _ _ _ _ _ _ _ _ _ _ _ _ Hlines Hk)
    as (ct & art & kt & c & a & Ht & Hrules & -> & ->).
  rewrite build_ebnf_lines_unfold, Ht. simpl. rewrite Hrules. simpl.
  eexists. split; [done |]. by repeat split.
Qed.
End assembler_more.

Section assembler_inputs.
Implicit Types (tools : list tool_def) (tool : tool_def) (function_format : string).

Lemma build_ebnf_layout_witness :
  ∃ lines,
    build_ebnf_lines [weather_tool; ping_tool] "xml" None None None None None
      None None "," = Ok lines
    ∧ length lines = 7.
Proof.
  eexists. split; [by vm_compute |].
  eapply (build_ebnf_layout [weather_tool; ping_tool] "xml" None None None None
            None None None ","). by vm_compute.
Defined.

Lemma default_call_rule_emitted_witness :
  ∃ text,
    build_ebnf [weather_tool; ping_tool] "pythonic" None None None None None
      None None "," = Ok text
    ∧ ∃ lines,
        text = join nl lines
        ∧ length lines = 3 + 2 * length [weather_tool; ping_tool]
        ∧ call_rule_of lines 1
          = Some ("call_ping ::= " +:+ dq +:+ "ping" +:+ dq +:+ " " +:+ dq +:+ "("
                  +:+ dq +:+ " arguments_ping " +:+ dq +:+ ")" +:+ dq).
Proof.
  eexists. split; [by vm_compute |].
  refine (default_call_rule_emitted [weather_tool; ping_tool] "pythonic" None None
            None None None None None "," _ 1 ping_tool _ _ _);
    [by vm_compute | reflexivity | reflexivity].
Defined.

Lemma call_rule_override_emitted_witness :
  ∃ text,
    build_ebnf [ping_tool] "json" None None None None None
      (Some "{name} {{ {arguments_rule} }}") None "," = Ok text
    ∧ ∃ lines body,
        text = join nl lines
        ∧ length lines = 3 + 2 * length [ping_tool]
        ∧ format "{name} {{ {arguments_rule} }}" (call_kwargs "ping") = Ok body
        ∧ call_rule_of lines 0 = Some ("call_ping ::= " +:+ body).
Proof.
  eexists. split; [by vm_compute |].
  refine (call_rule_override_emitted [ping_tool] "json" None None None None None
            (Some "{name} {{ {arguments_rule} }}") None "," _ 0 ping_tool _ _ _ _ _);
    [by vm_compute | reflexivity | reflexivity | discriminate].
Defined.

Lemma no_properties_arguments_witness :
  ∃ text,
    build_ebnf [ping_tool] "json" None None None None None None None ","
    = Ok text
    ∧ ∃ lines,
        text = join nl lines
        ∧ length lines = 3 + 2 * length [ping_tool]
        ∧ arguments_rule_of lines 0
          = Some ("arguments_ping ::= " +:+ dq +:+ "{" +:+ dq +:+ "  " +:+ dq +:+ "}"
                  +:+ dq).
Proof.
  eexists. split; [by vm_compute |].
  refine (proj1 (no_properties_arguments [ping_tool] "json" None None None None None
                   None None "," _ 0 ping_tool _ _ _));
    [by vm_compute | reflexivity | reflexivity].
Defined.

Lemma tool_rules_independent_witness :
  ∃ lines lines',
    build_ebnf_lines [search_tool; weather_tool] "json" (Some "<tools>")
      (Some "</tools>") None None (Some ";") None None "," = Ok lines
    ∧ build_ebnf_lines [weather_tool] "json" None None None None None None None ","
      = Ok lines'
    ∧ arguments_rule_of lines 1 = arguments_rule_of lines' 0.
Proof.
  eexists.
  destruct (tool_rules_independent [search_tool; weather_tool] "json"
              (Some "<tools>") (Some "</tools>") None None (Some ";") None None ","
              _ 1 weather_tool ltac:(by vm_compute) eq_refl)
    as (lines' & Hlines' & _ & _ & _ & Hargs).
  exists lines'. split; [by vm_compute | by split].
Defined.

(** X10: with one of the three formats, no template override and tools whose
    property mappings are dictionaries and whose enums hold no integer of more
    than 4300 digits (which [str] refuses to print, with a [ValueError]),
    [build_ebnf] raises nothing: it returns its lines joined by line feeds, for
    every wrapping and every key-value separator. *)
Theorem build_ebnf_returns tools function_format sequence_start_token
    sequence_end_token individual_call_start_token individual_call_end_token
    tool_call_separator key_value_separator :
  known_format function_format →
  Forall properties_dict tools →
  forallb tool_printable tools = true →
  ∃ lines,
    build_ebnf_lines tools function_format sequence_start_token
      sequence_end_token individual_call_start_token individual_call_end_token
      tool_call_separator None None key_value_separator = Ok lines
    ∧ build_ebnf tools function_format sequence_start_token
        sequence_end_token individual_call_start_token individual_call_end_token
        tool_call_separator None None key_value_separator = Ok (join nl lines).
Proof.
  intros Hfmt Htools _.
  destruct (build_ebnf_lines_total tools function_format sequence_start_token
              sequence_end_token individual_call_start_token
              individual_call_end_token tool_call_separator key_value_separator
              Hfmt Htools) as [lines Hlines].
  exists lines. split; [done |]. unfold build_ebnf. by rewrite Hlines.
Qed.

Lemma build_ebnf_returns_witness :
  ∃ lines,
    build_ebnf [search_tool; toggle_tool] "xml" (Some "<tools>") (Some "</tools>")
      None None (Some ";") None None "," = Ok (join nl lines).
Proof.
  destruct (build_ebnf_returns [search_tool; toggle_tool] "xml" (Some "<tools>")
              (Some "</tools>") None None (Some ";") ",") as (lines & _ & Htext).
  - apply known_format_cases. auto.
  - apply Forall_cons_2; [apply sample_properties_dict; by vm_compute |].
    apply Forall_cons_2; [apply sample_properties_dict; by vm_compute |].
    apply Forall_nil_2.
  - by vm_compute.
  - by exists lines.
Defined.



Lemma root_rule_of_sequence_absent sequence_start_token sequence_end_token
    individual_call_start_token individual_call_end_token tool_call_separator :
  given sequence_start_token && given sequence_end_token = false →
  root_rule_of sequence_start_token sequence_end_token
    individual_call_start_token individual_call_end_token tool_call_separator
  = root_rule_of None None
      individual_call_start_token individual_call_end_token tool_call_separator.
Proof. intros Hgiven. unfold root_rule_of. by rewrite Hgiven. Qed.

Lemma root_rule_of_individual_absent sequence_start_token sequence_end_token
    individual_call_start_token individual_call_end_token tool_call_separator :
  given individual_call_start_token && given individual_call_end_token = false →
  root_rule_of sequence_start_token sequence_end_token
    individual_call_start_token individual_call_end_token tool_call_separator
  = root_rule_of sequence_start_token sequence_end_token None None
      tool_call_separator.
Proof. intros Hgiven. unfold root_rule_of. by rewrite Hgiven. Qed.

(** X12: a token or a template override that is the empty string is read as
    absent, and so is a wrapping token whose partner is absent or empty: a
    pair of sequence tokens, or of tokens around the single calls, wraps only
    when both are non-empty; [build_ebnf] then gives the same result as
    without the pair or the override. *)
Theorem build_ebnf_absent_options tools function_format sequence_start_token
    sequence_end_token individual_call_start_token individual_call_end_token
    tool_call_separator call_rule_fmt key_value_rule_fmt key_value_separator :
  (given sequence_start_token && given sequence_end_token = false →
   build_ebnf tools function_format sequence_start_token sequence_end_token
     individual_call_start_token individual_call_end_token tool_call_separator
     call_rule_fmt key_value_rule_fmt key_value_separator
   = build_ebnf tools function_format None None
       individual_call_start_token individual_call_end_token tool_call_separator
       call_rule_fmt key_value_rule_fmt key_value_separator)
  ∧ (given individual_call_start_token && given individual_call_end_token = false →
     build_ebnf tools function_format sequence_start_token sequence_end_token
       individual_call_start_token individual_call_end_token tool_call_separator
       call_rule_fmt key_value_rule_fmt key_value_separator
     = build_ebnf tools function_format sequence_start_token sequence_end_token
         None None tool_call_separator
         call_rule_fmt key_value_rule_fmt key_value_separator)
  ∧ (given call_rule_fmt = false →
     build_ebnf tools function_format sequence_start_token sequence_end_token
       individual_call_start_token individual_call_end_token tool_call_separator
       call_rule_fmt key_value_rule_fmt key_value_separator
     = build_ebnf tools function_format sequence_start_token sequence_end_token
         individual_call_start_token individual_call_end_token tool_call_separator
         None key_value_rule_fmt key_value_separator)
  ∧ (given key_value_rule_fmt = false →
     build_ebnf tools function_format sequence_start_token sequence_end_token
       individual_call_start_token individual_call_end_token tool_call_separator
       call_rule_fmt key_value_rule_fmt key_value_separator
     = build_ebnf tools function_format sequence_start_token sequence_end_token
         individual_call_start_token individual_call_end_token tool_call_separator
         call_rule_fmt None key_value_separator).
Proof.
  repeat apply conj; intros Hgiven; unfold build_ebnf, build_ebnf_lines.
  - by rewrite (root_rule_of_sequence_absent _ _ _ _ _ Hgiven).
  - by rewrite (root_rule_of_individual_absent _ _ _ _ _ Hgiven).
  - unfold templates, call_template_of. by rewrite Hgiven.
  - unfold templates, key_value_template_of. by rewrite Hgiven.
Qed.

Lemma build_ebnf_absent_options_witness :
  build_ebnf [weather_tool] "json" (Some "<tools>") (Some EmptyString) None None
    (Some ";") None None ","
  = build_ebnf [weather_tool] "json" None None None None (Some ";") None None ",".
Proof.
  apply (build_ebnf_absent_options [weather_tool] "json" (Some "<tools>")
           (Some EmptyString) None None (Some ";") None None ",").
  reflexivity.
Defined.
End assembler_inputs.

Section tools_read.
Implicit Types (tools : list tool_def) (tool : tool_def) (function_format : string).

Lemma tool_rules_same_reading function_format call_template args_template
    key_value_template key_value_separator tool tool' :
  same_reading tool tool' →
  tool_rules function_format call_template args_template key_value_template
    key_value_separator tool
  = tool_rules function_format call_template args_template key_value_template
      key_value_separator tool'.
Proof.
  intros (Hname & Hprops & Hreq).
  assert (required_list tool = required_list tool') as Hr.
  { unfold required_list, required_of, ordered_props_of. rewrite <-Hprops.
    by apply filter_ext_elem_of. }
  assert (optional_list tool = optional_list tool') as Ho.
  { unfold optional_list, optional_of, ordered_props_of. rewrite <-Hprops.
    apply filter_ext_elem_of. intros p Hp. by rewrite (Hreq p Hp). }
  unfold tool_rules. by rewrite Hname, Hprops, Hr, Ho.
Qed.

(** X13: [build_ebnf] reads of a tool its name, its property mapping and
    which of its properties are in the required set, and nothing else: the
    result, a grammar or an exception, is the same when a tool is replaced by
    one that agrees on these, whatever the order and the repetitions in the
    list under ["required"], and whether the parameters or their
    ["properties"] are missing or empty. *)
Theorem build_ebnf_same_reading tools_before tools_after tool tool'
    function_format sequence_start_token sequence_end_token
    individual_call_start_token individual_call_end_token tool_call_separator
    call_rule_fmt key_value_rule_fmt key_value_separator :
  same_reading tool tool' →
  build_ebnf (tools_before ++ tool :: tools_after) function_format
    sequence_start_token sequence_end_token individual_call_start_token
    individual_call_end_token tool_call_separator call_rule_fmt
    key_value_rule_fmt key_value_separator
  = build_ebnf (tools_before ++ tool' :: tools_after) function_format
      sequence_start_token sequence_end_token individual_call_start_token
      individual_call_end_token tool_call_separator call_rule_fmt
      key_value_rule_fmt key_value_separator.
Proof.
  intros Hsame. unfold build_ebnf. rewrite !build_ebnf_lines_unfold.
  destruct (templates _ _ _) as [[[ct art] kt]|e]; simpl; [|done].
  rewrite (mapM_app_cons_ext _ tools_before tools_after tool tool')
    by by apply tool_rules_same_reading.
  destruct Hsame as (Hname & _ & _).
  unfold header_rules. by rewrite !fmap_app, !fmap_cons, Hname.
Qed.

Lemma build_ebnf_same_reading_witness :
  build_ebnf [search_tool; tool_of "add" [("a", integer_schema); ("b", integer_schema)]
                             ["b"; "a"; "b"]]
    "pythonic" None None None None None None None ","
  = build_ebnf [search_tool; tool_of "add" [("a", integer_schema); ("b", integer_schema)]
                               ["a"; "b"]]
      "pythonic" None None None None None None None ",".
Proof.
  apply (build_ebnf_same_reading [search_tool] []).
  repeat apply conj; reflexivity.
Defined.

Lemma tool_rules_no_properties function_format call_template args_template
    key_value_template key_value_template' key_value_separator tool :
  properties_of tool = [] →
  tool_rules function_format call_template args_template key_value_template
    key_value_separator tool
  = tool_rules function_format call_template args_template key_value_template'
      key_value_separator tool.
Proof. intros Hprops. unfold tool_rules. by rewrite Hprops. Qed.

(** X14: the key-value template is formatted for the properties only: when
    no tool has a property, [build_ebnf] gives the same result with any
    override of the key-value template as with any other or with none, a
    template that cannot be formatted included. *)
Theorem build_ebnf_key_value_template_unused tools function_format
    sequence_start_token sequence_end_token individual_call_start_token
    individual_call_end_token tool_call_separator call_rule_fmt
    key_value_rule_fmt key_value_rule_fmt' key_value_separator :
  Forall (λ tool, properties_of tool = []) tools →
  build_ebnf tools function_format sequence_start_token sequence_end_token
    individual_call_start_token individual_call_end_token tool_call_separator
    call_rule_fmt key_value_rule_fmt key_value_separator
  = build_ebnf tools function_format sequence_start_token sequence_end_token
      individual_call_start_token individual_call_end_token tool_call_separator
      call_rule_fmt key_value_rule_fmt' key_value_separator.
Proof.
  intros Htools. unfold build_ebnf. rewrite !build_ebnf_lines_unfold.
  unfold templates.
  destruct (call_template_of function_format call_rule_fmt) as [ct|e]; [|done].
  simpl. unfold args_template_of.
  destruct (getitem ARGUMENTS_RULE_MAP function_format) as [art|e] eqn:Hart;
    [|done].
  simpl.
  assert (∀ fmt, ∃ kt, key_value_template_of function_format fmt = Ok kt) as Hkt.
  { intros fmt. unfold key_value_template_of.
    destruct (given fmt); [eauto |].
    apply getitem_Ok, registry_lookup in Hart.
    destruct Hart as [[-> _] | [[-> _] | [-> _]]]; vm_compute; eauto. }
  destruct (Hkt key_value_rule_fmt) as [kt ->].
  destruct (Hkt key_value_rule_fmt') as [kt' ->]. simpl.
  rewrite (mapM_ext_Forall _ (tool_rules function_format ct art kt' key_value_separator)).
  - done.
  - eapply Forall_impl; [done |]. intros tool Hprops.
    by apply tool_rules_no_properties.
Qed.

Lemma build_ebnf_key_value_template_unused_witness :
  build_ebnf [ping_tool] "json" None None None None None None (Some "}{ {") ","
  = build_ebnf [ping_tool] "json" None None None None None None None ",".
Proof.
  apply build_ebnf_key_value_template_unused.
  apply Forall_cons_2; [reflexivity | apply Forall_nil_2].
Defined.
End tools_read.

Section enum_samples.
End enum_samples.
